(** * googs: clock engine, coordinate converter and status formatter

    A shallow embedding of [models.go] of the googs client library
    (package [googs]), with the two parsing helpers of its demo
    ([playMove], [parseGameID]), and the proofs of its specification.

    Conventions of the embedding:
    - Go [int] and [int64] are [Z] with the 64-bit wrap-around written out
      ([wrap64]); [rune] is [Z] with the 32-bit wrap-around ([wrap32]).
    - Go [float64] is Rocq's primitive binary64 [float]; [float32] is a
      [spec_float] computed at precision 24 ([F32]).
    - Go [string] is [string] (a sequence of bytes).
    - A Go result pair of a pointer and an error is [option T]: [None] is
      the [nil, err] return.  Method receivers and the time-control
      argument are taken non-nil.
    - The wall clock read by [time.Since] is the explicit argument [now].
    - Two functions of Go's library are parameters: [strconv.Quote] (the
      verb [%q]) and the non-ASCII path of [strings.ToUpper]. *)

From Stdlib Require Import ZArith Lia Bool List Ascii String.
From Stdlib Require Import DecimalString DecimalPos DecimalZ.
From Stdlib Require Import Floats.
From stdpp Require Import base gmap strings.

Set Warnings "-inexact-float".
Local Open Scope Z_scope.

(** ** Machine integers *)

Definition min_int64 : Z := - 2 ^ 63.
Definition max_int64 : Z := 2 ^ 63 - 1.

(** Two's complement reduction to [bits] bits. *)
Definition wrap (bits : Z) (z : Z) : Z :=
  (z + 2 ^ (bits - 1)) mod 2 ^ bits - 2 ^ (bits - 1).

Definition wrap64 : Z -> Z := wrap 64.
Definition wrap32 : Z -> Z := wrap 32.

Definition in_int64 (z : Z) : bool := (min_int64 <=? z) && (z <=? max_int64).

(** Equivalent to Python [return x if b else y] *)
Definition cond {T : Type} (b : bool) (x y : T) : T :=
  if b then x else y.

(** ** Coordinates *)

(** [OriginCoordinate] is zero base coordinate. *)
Record OriginCoordinate : Type := mkOrigin { X : Z; Y : Z }.

(** [A1Coordinate] is coordinate represented in format "A1", note letter
    'I' is skipped. *)
Record A1Coordinate : Type := mkA1 { Col : Z; Row : Z }.

(** Rune literals used by the converter. *)
Definition rune_A : Z := 65.
Definition rune_H : Z := 72.
Definition rune_I : Z := 73.
Definition rune_J : Z := 74.
Definition rune_T : Z := 84.
Definition rune_Z : Z := 90.
Definition rune_a : Z := 97.
Definition rune_z : Z := 122.

Definition IsPass (c : OriginCoordinate) : bool :=
  (X c =? -1) || (Y c =? -1).

Definition ToA1Coordinate (c : OriginCoordinate) (boardSize : Z)
  : option A1Coordinate :=
  if (X c <? 0) || (X c >=? boardSize) || (Y c <? 0) || (Y c >=? boardSize)
  then None
  else
    let col := wrap32 (rune_A + wrap32 (X c)) in
    let col := if X c >=? 8 then wrap32 (col + 1) else col in  (* Skip 'I' *)
    let row := wrap64 (boardSize - Y c) in                     (* Reverse counting *)
    Some (mkA1 col row).

Definition ToOriginCoordinate (c : A1Coordinate) (boardSize : Z)
  : option OriginCoordinate :=
  let col := Col c in
  let col := if (col >=? rune_a) && (col <=? rune_z)
             then wrap32 (col - (rune_a - rune_A))             (* to upper case *)
             else col in
  let ox :=
    if (col >=? rune_A) && (col <=? rune_H) then Some (wrap32 (col - rune_A))
    else if (col >=? rune_J) && (col <=? rune_T)               (* Account for skipped 'I' *)
    then Some (wrap32 (col - rune_A - 1))
    else None in
  match ox with
  | None => None
  | Some x =>
      let y := wrap64 (boardSize - Row c) in
      if (x <? 0) || (x >=? boardSize) || (y <? 0) || (y >=? boardSize)
      then None
      else Some (mkOrigin x y)
  end.

(** The composition of the two conversions, as the round trip runs it. *)
Definition roundTrip (c : OriginCoordinate) (boardSize : Z)
  : option OriginCoordinate :=
  match ToA1Coordinate c boardSize with
  | Some a1 => ToOriginCoordinate a1 boardSize
  | None => None
  end.

(** ** Floating point: [float64], package [math], conversions

    Arithmetic and comparisons are the IEEE 754 binary64 operations of
    [PrimFloat], unfused (the amd64 compilation of the source). *)

(** [float64(z)] for an [int64] [z]: rounding to nearest, ties to even. *)
Definition float64_of_int (z : Z) : float :=
  if z =? min_int64 then (- 0x1p63)%float
  else if z <? 0 then (- of_uint63 (Uint63.of_Z (- z)))%float
  else of_uint63 (Uint63.of_Z z).

(** [int(x)] for a [float64] [x]: the fraction is discarded; a value that
    does not fit (or NaN) gives the amd64 "integer indefinite" [min_int64]. *)
Definition int_of_float64 (x : float) : Z :=
  match Prim2SF x with
  | S754_zero _ => 0
  | S754_finite s m e =>
      let v := if 0 <=? e then Z.pos m * 2 ^ e else Z.pos m / 2 ^ (- e) in
      let z := if s then - v else v in
      if in_int64 z then z else min_int64
  | _ => min_int64
  end.

(** [math.Floor]: the greatest integer value less than or equal to [x];
    [Floor(±0) = ±0], [Floor(±Inf) = ±Inf], [Floor(NaN) = NaN]. *)
Definition Floor (x : float) : float :=
  match Prim2SF x with
  | S754_finite s m e =>
      if 0 <=? e then x
      else
        let d := 2 ^ (- e) in
        let q := Z.pos m / d in
        if s then
          if Z.pos m mod d =? 0 then x else float64_of_int (- (q + 1))
        else float64_of_int q
  | _ => x
  end.

(** [math.Max]: [Max(x, +Inf) = Max(+Inf, x) = +Inf], [Max(x, NaN) =
    Max(NaN, x) = NaN], [Max(+0, ±0) = Max(±0, +0) = +0]. *)
Definition Max (x y : float) : float :=
  if (x =? infinity)%float || (y =? infinity)%float then infinity
  else if is_nan x || is_nan y then nan
  else if (x =? 0)%float && (x =? y)%float then (if get_sign x then y else x)
  else if (y <? x)%float then x else y.

(** ** Package [time] *)

(** An instant, in nanoseconds since the Unix epoch. *)
Definition Time : Type := Z.

(** [Timestamp] is a customized Time struct. *)
Definition Timestamp : Type := Time.

(** A [time.Duration]: an [int64] count of nanoseconds. *)
Definition Duration : Type := Z.

Definition Second : Duration := 1000000000.

(** [t.Sub(u)]: the difference, or the largest (smallest) duration when it
    does not fit. *)
Definition Sub (t u : Time) : Duration :=
  Z.max min_int64 (Z.min max_int64 (t - u)).

(** [time.Since(t)], evaluated at the instant [now]. *)
Definition Since (now t : Time) : Duration := Sub now t.

Definition Seconds (d : Duration) : float :=
  let sec := Z.quot d Second in
  let nsec := Z.rem d Second in
  (float64_of_int sec + float64_of_int nsec / 1e9)%float.

(** ** Strings and package [fmt] *)

Local Open Scope string_scope.
Local Open Scope Z_scope.

(** [%d] *)
Definition Sprintf_d (z : Z) : string :=
  NilZero.string_of_int (Z.to_int z).

Definition byte (z : Z) : ascii := ascii_of_N (Z.to_N z).

(** The UTF-8 encoding of the replacement character U+FFFD. *)
Definition RuneError : string :=
  String (byte 239) (String (byte 191) (String (byte 189) "")).

(** [%c]: the UTF-8 encoding of the rune, U+FFFD for an invalid one. *)
Definition Sprintf_c (r : Z) : string :=
  if (r <? 0) || (r >? 1114111) || ((55296 <=? r) && (r <=? 57343))
  then RuneError
  else if r <? 128 then String (byte r) ""
  else if r <? 2048 then
    String (byte (Z.lor 192 (Z.shiftr r 6)))
      (String (byte (Z.lor 128 (Z.land r 63))) "")
  else if r <? 65536 then
    String (byte (Z.lor 224 (Z.shiftr r 12)))
      (String (byte (Z.lor 128 (Z.land (Z.shiftr r 6) 63)))
         (String (byte (Z.lor 128 (Z.land r 63))) ""))
  else
    String (byte (Z.lor 240 (Z.shiftr r 18)))
      (String (byte (Z.lor 128 (Z.land (Z.shiftr r 12) 63)))
         (String (byte (Z.lor 128 (Z.land (Z.shiftr r 6) 63)))
            (String (byte (Z.lor 128 (Z.land r 63))) ""))).

(** The integer nearest to [m * 2^e], ties to even. *)
Definition round_half_even (m : positive) (e : Z) : Z :=
  if 0 <=? e then Z.pos m * 2 ^ e
  else
    let d := 2 ^ (- e) in
    let q := Z.pos m / d in
    let r := Z.pos m mod d in
    match 2 * r ?= d with
    | Lt => q
    | Gt => q + 1
    | Eq => if Z.even q then q else q + 1
    end.

(** [%.0f] (also written [%.f]): the value rounded to an integer. *)
Definition Sprintf_f0 (x : float) : string :=
  match Prim2SF x with
  | S754_nan => "NaN"
  | S754_infinity s => if s then "-Inf" else "+Inf"
  | S754_zero s => if s then "-0" else "0"
  | S754_finite s m e =>
      (if s then "-" else "") +:+ Sprintf_d (round_half_even m e)
  end.

(** [%02.0f]: as [%.0f], padded on the left to width two, with zeros for a
    number and with spaces for an infinity or NaN. *)
Definition Sprintf_02f0 (x : float) : string :=
  let s := Sprintf_f0 x in
  match s with
  | String c "" => String "0" s
  | _ => s
  end.

(** ** [float32] *)

Module F32.
Definition prec : Z := 24.
Definition emax : Z := 128.

Definition t : Type := spec_float.

Definition of_int (z : Z) : t := binary_normalize prec emax z 0 false.

(** The constant [num/den] converted to [float32]. *)
Definition const (num den : Z) : t :=
  SFdiv prec emax (of_int num) (of_int den).

Definition sub (x y : t) : t := SFsub prec emax x y.
Definition geb (x y : t) : bool := SFleb y x.

(** [float64(x)]: exact. *)
Definition to_float64 (x : t) : float := SF2Prim x.
End F32.

(** ** Players *)

Definition PlayerColor : Type := Z.
Definition PlayerUnknown : PlayerColor := 0.
Definition PlayerBlack : PlayerColor := 1.
Definition PlayerWhite : PlayerColor := 2.

(** [Player] contains basic user information as part of Game. *)
Module Player.
Record t : Type := mk {
  ID : Z;
  Username : string;
  Professional : bool;
  Rank : F32.t;
  (* Accepted removals; [None] means "not accepted yet". *)
  AcceptedStones : option string
}.

(** The zero value, as a missing map key yields it. *)
Definition zero : t := mk 0 "" false (S754_zero false) None.

(** [Ranking] returns the player's OGS ranking as a string in notation
    like "1p", "2d", "3k" etc. *)
Definition Ranking (p : t) : string :=
  if Professional p then
    Sprintf_f0 (F32.to_float64 (F32.sub (Rank p) (F32.of_int 36))) +:+ "p"
  else if F32.geb (Rank p) (F32.of_int 1037) then
    Sprintf_f0 (F32.to_float64 (F32.sub (Rank p) (F32.of_int 1036))) +:+ "p"
  else if F32.geb (Rank p) (F32.of_int 30) then
    Sprintf_f0 (F32.to_float64 (F32.sub (Rank p) (F32.of_int 29))) +:+ "d"
  else if F32.geb (Rank p) (F32.of_int 1) then
    Sprintf_f0 (30 - Floor (F32.to_float64 (Rank p)))%float +:+ "k"
  else "?".

Definition String (p : t) : string :=
  Username p +:+ "[" +:+ Ranking p +:+ "]".
End Player.

(** ** Time control and clocks *)

Definition ClockSystem : Type := string.
Definition ClockAbsolute : ClockSystem := "absolute".
Definition ClockByoyomi : ClockSystem := "byoyomi".
Definition ClockCanadian : ClockSystem := "canadian".
Definition ClockFischer : ClockSystem := "fischer".
Definition ClockSimple : ClockSystem := "simple".

Module PlayerTime.
Record t : Type := mk {
  (* Non Rengo games *)
  PeriodTime : float;
  PeriodTimeLeft : float;      (* Byoyomi only *)
  Periods : Z;
  ThinkingTime : float;
  MovesLeft : Z;               (* Canadian only *)
  BlockTime : float;           (* Canadian only *)
  (* Only for Rengo games *)
  Value : Timestamp
}.
End PlayerTime.

Module TimeControl.
Record t : Type := mk {
  System : ClockSystem;
  Speed : string;
  PauseOnWeekends : bool;
  (* Absolute *)
  TotalTime : float;
  (* Byoyomi *)
  MainTime : float;            (* Also for Canadian *)
  PeriodTime : float;          (* Also for Canadian *)
  Periods : Z;
  PeriodsMax : Z;
  PeriodsMin : Z;
  (* Canadian *)
  StonesPerPeriod : Z;
  (* Fischer *)
  InitialTime : float;
  TimeIncrement : float;
  MaxTime : float;
  (* Simple *)
  PerMove : float
}.
End TimeControl.

(** The five disciplines [ComputeClock] knows. *)
Definition knownSystem (system : ClockSystem) : Prop :=
  system = ClockAbsolute \/ system = ClockByoyomi \/ system = ClockCanadian
  \/ system = ClockFischer \/ system = ClockSimple.

(** The threshold under which a time counts as used up (the source's
    constant [1e-7]). *)
Definition eps : float := 1e-7%float.

Definition prettyTime (seconds : float) : string :=
  let days := Floor (seconds / 86400)%float in
  let seconds := (seconds - days * 86400)%float in
  let hours := Floor (seconds / 3600)%float in
  let seconds := (seconds - hours * 3600)%float in
  let minutes := Floor (seconds / 60)%float in
  let seconds := (seconds - minutes * 60)%float in
  if (0 <? days)%float then
    if (0 <? hours)%float
    then Sprintf_f0 days +:+ "d" +:+ Sprintf_f0 hours +:+ "h"
    else (* "1d" is confusing, use "24h" instead *)
      Sprintf_f0 (days * 24)%float +:+ "h"
  else if (0 <? hours)%float then
    Sprintf_f0 hours +:+ "h"
      +:+ cond (0 <? minutes)%float (Sprintf_f0 minutes +:+ "m") ""
  else if (0 <? minutes)%float then
    Sprintf_f0 minutes +:+ ":" +:+ Sprintf_02f0 seconds
  else Sprintf_f0 seconds +:+ "s".

Module ComputedClock.
Record t : Type := mk {
  System : ClockSystem;
  MainTime : float;
  PeriodsLeft : Z;
  PeriodTimeLeft : float;      (* Byoyomi only *)
  MovesLeft : Z;               (* Canadian only *)
  BlockTimeLeft : float;       (* Canadian only *)
  SuddenDeath : bool;
  TimedOut : bool
}.

Definition String (c : t) : string :=
  if TimedOut c then "Timeout"
  else if String.eqb (System c) ClockAbsolute
       || String.eqb (System c) ClockFischer
       || String.eqb (System c) ClockSimple then
    prettyTime (MainTime c) +:+ cond (SuddenDeath c) " (SD)" ""
  else if String.eqb (System c) ClockByoyomi then
    if SuddenDeath c then prettyTime (PeriodTimeLeft c) +:+ " (SD)"
    else if (0 <? MainTime c)%float then
      prettyTime (MainTime c) +:+ " +" +:+ prettyTime (PeriodTimeLeft c)
        +:+ " (" +:+ Sprintf_d (PeriodsLeft c) +:+ ")"
    else
      prettyTime (PeriodTimeLeft c)
        +:+ " (" +:+ Sprintf_d (PeriodsLeft c) +:+ ")"
  else if String.eqb (System c) ClockCanadian then
    if SuddenDeath c then
      prettyTime (BlockTimeLeft c) +:+ "/" +:+ Sprintf_d (MovesLeft c)
        +:+ " (SD)"
    else if (0 <? MainTime c)%float then
      prettyTime (MainTime c) +:+ " +" +:+ prettyTime (BlockTimeLeft c)
        +:+ "/" +:+ Sprintf_d (MovesLeft c)
    else
      prettyTime (BlockTimeLeft c) +:+ "/" +:+ Sprintf_d (MovesLeft c)
  else "??:??".
End ComputedClock.

Module Clock.
Record t : Type := mk {
  BlackPlayerID : Z;
  BlackTime : PlayerTime.t;
  CurrentPlayerID : Z;
  Expiration : Timestamp;
  GameID : Z;
  LastMove : Timestamp;
  PausedSince : Timestamp;
  Title : string;
  WhitePlayerID : Z;
  WhiteTime : PlayerTime.t;
  StartMode : bool;
  Now : Timestamp              (* Only for OnClock *)
}.

(** The first [switch] of [ComputeClock]: the queried player's time and
    whether that player holds the turn; [None] is the [default] case. *)
Definition playerTimeAndTurn (c : t) (player : PlayerColor)
  : option (PlayerTime.t * bool) :=
  if player =? PlayerBlack then
    Some (BlackTime c, CurrentPlayerID c =? BlackPlayerID c)
  else if player =? PlayerWhite then
    Some (WhiteTime c, CurrentPlayerID c =? WhitePlayerID c)
  else None.

(** Whether the queried player is the current turn holder. *)
Definition holdsTurn (c : t) (player : PlayerColor) : bool :=
  match playerTimeAndTurn c player with
  | Some (_, isTurn) => isTurn
  | None => false
  end.

(** Pause clock if not turn or game has not started yet *)
Definition elapsedAt (now : Time) (c : t) (isTurn : bool) : float :=
  cond (isTurn && negb (StartMode c)) (Seconds (Since now (LastMove c))) 0%float.

(** The depletion of the main time, which the byoyomi and the canadian
    branch both start with: the pair of [mainTime] and [overTime]. *)
Definition mainAndOverTime (thinkingTime elapsed : float) : float * float :=
  if (eps <? thinkingTime)%float then
    let mainTime := (thinkingTime - elapsed)%float in
    if (mainTime <? eps)%float then (0%float, (- mainTime)%float)
    else (mainTime, 0%float)
  else (0%float, elapsed).

(** [ComputeClock] returns a computed clock struct of the given players. *)
Definition ComputeClock (now : Time) (c : t) (tc : TimeControl.t)
    (player : PlayerColor) : option ComputedClock.t :=
  match playerTimeAndTurn c player with
  | None => None
  | Some (t, isTurn) =>
    let elapsed := elapsedAt now c isTurn in
    let system := TimeControl.System tc in
    if String.eqb system ClockAbsolute || String.eqb system ClockFischer then
      let mainTime :=
        cond isTurn (Max 0 (PlayerTime.ThinkingTime t - elapsed)%float)
          (PlayerTime.ThinkingTime t) in
      Some (ComputedClock.mk system mainTime 0 0%float 0 0%float
              (mainTime <? 10)%float (mainTime <? eps)%float)
    else if String.eqb system ClockByoyomi then
      let '(mainTime, periodsLeft, periodTimeLeft) :=
        if isTurn then
          let '(mainTime, overTime) :=
            mainAndOverTime (PlayerTime.ThinkingTime t) elapsed in
          let periodsLeft := PlayerTime.Periods t in
          let periodTimeLeft := PlayerTime.PeriodTime t in
          if (eps <? overTime)%float then
            let periodsUsed :=
              Floor (overTime / TimeControl.PeriodTime tc)%float in
            let periodsLeft :=
              wrap64 (periodsLeft - int_of_float64 periodsUsed) in
            let periodsLeft := cond (periodsLeft >? 0) periodsLeft 0 in
            let periodTimeLeft :=
              (TimeControl.PeriodTime tc
               - (overTime - periodsUsed * TimeControl.PeriodTime tc))%float in
            let periodTimeLeft :=
              cond (eps <? periodTimeLeft)%float periodTimeLeft 0%float in
            (mainTime, periodsLeft, periodTimeLeft)
          else (mainTime, periodsLeft, periodTimeLeft)
        else
          (PlayerTime.ThinkingTime t, PlayerTime.Periods t,
           TimeControl.PeriodTime tc) in
      Some (ComputedClock.mk system mainTime periodsLeft periodTimeLeft
              0 0%float
              (periodsLeft <=? 1)
              ((mainTime <? eps)%float && (periodsLeft <? 0)))
    else if String.eqb system ClockCanadian then
      let '(mainTime, movesLeft, blockTimeLeft) :=
        if isTurn then
          let '(mainTime, overTime) :=
            mainAndOverTime (PlayerTime.ThinkingTime t) elapsed in
          let movesLeft := PlayerTime.MovesLeft t in
          let blockTimeLeft := PlayerTime.BlockTime t in
          if (eps <? overTime)%float then
            let blockTimeLeft := (blockTimeLeft - overTime)%float in
            let blockTimeLeft :=
              cond (eps <? blockTimeLeft)%float blockTimeLeft 0%float in
            (mainTime, movesLeft, blockTimeLeft)
          else (mainTime, movesLeft, blockTimeLeft)
        else
          (PlayerTime.ThinkingTime t, PlayerTime.MovesLeft t,
           PlayerTime.BlockTime t) in
      Some (ComputedClock.mk system mainTime 0 0%float
              movesLeft blockTimeLeft
              ((mainTime <? eps)%float
               && ((blockTimeLeft <? 10)%float || (movesLeft <? 2)))
              ((mainTime <? eps)%float && (blockTimeLeft <? eps)%float))
    else if String.eqb system ClockSimple then
      let mainTime :=
        cond isTurn (Max 0 (TimeControl.PerMove tc - elapsed)%float)
          (TimeControl.PerMove tc) in
      Some (ComputedClock.mk system mainTime 0 0%float 0 0%float
              (mainTime <? 10)%float (mainTime <? eps)%float)
    else None
  end.
End Clock.

(** ** Games and the status formatter *)

(** [A1Coordinate.String]: the verbs [%c%d]. *)
Definition A1Coordinate_String (c : A1Coordinate) : string :=
  Sprintf_c (Col c) +:+ Sprintf_d (Row c).

(** The verb [%s] on the pointer returned by [ToA1Coordinate]: [fmt]
    prints a nil pointer as [<nil>]. *)
Definition Sprintf_s_A1 (a1 : option A1Coordinate) : string :=
  match a1 with
  | Some c => A1Coordinate_String c
  | None => "<nil>"
  end.

(** The last byte of a string. *)
Fixpoint lastByte (s : string) : option ascii :=
  match s with
  | EmptyString => None
  | String c EmptyString => Some c
  | String _ rest => lastByte rest
  end.

(** [strings.Contains] *)
Definition Contains (s substr : string) : bool :=
  match index 0 substr s with
  | Some _ => true
  | None => false
  end.

Definition GamePhase : Type := string.
Definition PlayPhase : GamePhase := "play".
Definition StoneRemovalPhase : GamePhase := "stone removal".
Definition FinishedPhase : GamePhase := "finished".

Module Players.
Record t : Type := mk { Black : Player.t; White : Player.t }.
End Players.

(** [Move] is a list of [x, y, TimeDelta] values. *)
Module Move.
Record t : Type := mk { Coordinate : OriginCoordinate; TimeDelta : float }.
End Move.

Module GameState.
Record t : Type := mk {
  (* Phase has value "play", "stone removal", "finished" etc. *)
  Phase : GamePhase;
  (* Number of moves already played. *)
  MoveNumber : Z;
  (* Last move, coordinate [-1, -1] indicates a pass *)
  LastMove : OriginCoordinate;
  (* User ID of the player in turn. *)
  PlayerToMove : Z;
  (* Game result, "Resignation", "2.5 points" etc. *)
  Outcome : string;
  (* The 2-D array with value 0=Empty, 1=Black, 2=White *)
  Board : list (list Z);
  Removal : list (list Z)
}.
End GameState.

(** OGS REST APIs are implemented based on https://apidocs.online-go.com *)
Definition ogsBaseURL : string := "https://online-go.com".

(** Of the fields of [Game], the ones its methods read; the rule and
    scoring flags are left out. *)
Module Game.
Record t : Type := mk {
  BlackPlayerID : Z;
  Clock : Clock.t;
  GameID : Z;
  GameName : string;
  Height : Z;
  Moves : list Move.t;
  Outcome : string;            (* Only when Phase is "finished" *)
  Phase : GamePhase;
  PlayerPool : gmap string Player.t;  (* Keys are player IDs (string) *)
  Players : Players.t;
  TimeControl : TimeControl.t;
  WhitePlayerID : Z;
  Width : Z;
  WinnerID : Z                 (* Only when Phase is "finished" *)
}.

Definition BoardSize (g : t) : Z := Height g.

Definition IsMyGame (g : t) (myUserID : Z) : bool :=
  Player.ID (default Player.zero (PlayerPool g !! Sprintf_d myUserID))
    =? myUserID.

Definition BlackPlayerTitle (g : t) : string :=
  "(B) " +:+ Player.String (Players.Black (Players g)).

Definition WhitePlayerTitle (g : t) : string :=
  "(W) " +:+ Player.String (Players.White (Players g)).

Definition Result (g : t) : string :=
  if negb (String.eqb (Phase g) FinishedPhase) then ""
  else
    let winner := cond (WinnerID g =? BlackPlayerID g)
                    (BlackPlayerTitle g) (WhitePlayerTitle g) in
    winner +:+ " won by " +:+ Outcome g.

Definition URL (g : t) : string :=
  ogsBaseURL +:+ "/game/" +:+ Sprintf_d (GameID g).

Definition IsMyTurn (g : t) (myUserID : Z) : bool :=
  Clock.CurrentPlayerID (Clock g) =? myUserID.

Definition Opponent (g : t) (myUserID : Z) : Player.t :=
  cond (Player.ID (Players.Black (Players g)) =? myUserID)
    (Players.White (Players g)) (Players.Black (Players g)).

Definition PlayerByID (g : t) (userID : Z) : Player.t :=
  default Player.zero (PlayerPool g !! Sprintf_d userID).

Definition BlackPlayer (g : t) : Player.t := Players.Black (Players g).

Definition WhitePlayer (g : t) : Player.t := Players.White (Players g).

Definition WhoseTurn (g : t) (state : GameState.t) : PlayerColor :=
  cond (GameState.PlayerToMove state =? Player.ID (BlackPlayer g))
    PlayerBlack PlayerWhite.

Section Formatting.
(** [strconv.Quote], which formats the verb [%q]: a double-quoted Go
    string literal. *)
Variable Quote : string -> string.

Definition String (g : t) : string :=
  let whoseTurn :=
    cond (Clock.CurrentPlayerID (Clock g)
            =? Player.ID (Players.Black (Players g))) "Black" "White" in
  Sprintf_d (GameID g) +:+ " " +:+ Quote (GameName g) +:+ " "
    +:+ BlackPlayerTitle g +:+ " vs " +:+ WhitePlayerTitle g +:+ ", "
    +:+ Sprintf_d (Z.of_nat (length (Moves g))) +:+ " moves, "
    +:+ whoseTurn +:+ " to play".

(** [state] is [None] for a nil [*GameState]. *)
Definition Status (g : t) (state : option GameState.t) (myUserID : Z)
  : string :=
  match state with
  | None => String g +:+ " (unknown board state)"
  | Some state =>
    if GameState.MoveNumber state =? 0 then
      "Game ready, " +:+ BlackPlayerTitle g +:+ " to start"
    else if String.eqb (GameState.Phase state) FinishedPhase then
      "Game has finished, " +:+ Result g
    else
      let '(whoPlayed, turn) :=
        if IsMyGame g myUserID then
          (cond (GameState.PlayerToMove state =? myUserID) "Opponent" "You",
           cond (GameState.PlayerToMove state =? myUserID) "your" "opponent's")
        else
          (cond (GameState.PlayerToMove state =? BlackPlayerID g) "White" "Black",
           cond (GameState.PlayerToMove state =? BlackPlayerID g) "Black's" "White's")
      in
      if IsPass (GameState.LastMove state) then
        Sprintf_d (GameState.MoveNumber state) +:+ " moves. " +:+ whoPlayed
          +:+ " passed, " +:+ turn +:+ " turn"
      else
        let a1 := ToA1Coordinate (GameState.LastMove state) (BoardSize g) in
        Sprintf_d (GameState.MoveNumber state) +:+ " moves. " +:+ whoPlayed
          +:+ " played " +:+ Sprintf_s_A1 a1 +:+ ", " +:+ turn +:+ " turn"
  end.
End Formatting.
End Game.

(** ** The depletion formulas as the specification words them

    The specification clamps at zero with [max]; the source clamps with
    the threshold [eps].  These definitions follow the specification's
    words and are compared with the source below. *)

Module AsSpecified.
(** [periodsUsed = floor(overTime / periodLength)] *)
Definition periodsUsed (overTime periodLength : float) : float :=
  Floor (overTime / periodLength)%float.

(** [periodTimeLeft = max(0, periodLength - (overTime -
    periodsUsed * periodLength))] *)
Definition periodTimeLeft (overTime periodLength : float) : float :=
  Max 0 (periodLength
         - (overTime - periodsUsed overTime periodLength * periodLength))%float.

(** [blockTimeLeft = max(0, blockTimeLeft - overTime)] *)
Definition blockTimeLeft (blockTime overTime : float) : float :=
  Max 0 (blockTime - overTime)%float.

(** [TimedOut = mainTime <= 0 AND blockTimeLeft <= 0] *)
Definition canadianTimedOut (mainTime blockTimeLeft : float) : bool :=
  (mainTime <=? 0)%float && (blockTimeLeft <=? 0)%float.
End AsSpecified.

(** [x] when it exceeds the threshold [eps], and zero otherwise: the
    source's [cond(x > 1e-7, x, 0)]. *)
Definition clampEps (x : float) : float :=
  cond (eps <? x)%float x 0%float.

(** ** Concrete snapshots used by the examples *)

Module Fixtures.
(** The instant of the last move of every example snapshot. *)
Definition lastMove : Time := 1700000000 * Second.

Definition noTime : PlayerTime.t := PlayerTime.mk 0 0 0 0 0 0 0.

(** Fifty nanoseconds short of thirty and of ten seconds. *)
Definition almostThirtySeconds : Duration := 29999999950.
Definition almostTenSeconds : Duration := 9999999950.

Definition timeControl (system : ClockSystem) (periodTime : float)
  : TimeControl.t :=
  TimeControl.mk system "live" false 0 0 periodTime 5 0 0 25 0 0 0 0.

(** Black (player 1) and White (player 2); [current] holds the turn. *)
Definition clock (black : PlayerTime.t) (current : Z) (startMode : bool)
  : Clock.t :=
  Clock.mk 1 black current 0 7 lastMove 0 "demo" 2 noTime startMode 0.

(** Thinking time only: 40 seconds. *)
Definition fortySeconds : PlayerTime.t := PlayerTime.mk 0 0 0 40 0 0 0.

(** Main time used up, [periods] periods left; the snapshot's period
    time is [periodTime] and its period time left is 12 seconds. *)
Definition inByoyomi (periods : Z) (periodTime : float) : PlayerTime.t :=
  PlayerTime.mk periodTime 12 periods 0 0 0 0.

(** [thinkingTime] seconds of main time and [periods] periods left; the
    snapshot's period time is [periodTime]. *)
Definition withMainTime (thinkingTime : float) (periods : Z)
    (periodTime : float) : PlayerTime.t :=
  PlayerTime.mk periodTime 12 periods thinkingTime 0 0 0.

(** Main time used up, 5 moves left in a block of [blockTime] seconds. *)
Definition inCanadian (thinkingTime blockTime : float) : PlayerTime.t :=
  PlayerTime.mk 0 0 0 thinkingTime 5 blockTime 0.

Definition player (id : Z) (name : string) (rank : F32.t) : Player.t :=
  Player.mk id name false rank None.

(** [strconv.Quote] on a string of letters: the string between double
    quotes. *)
Definition quoteLetters (s : string) : string :=
  String (byte 34) (s +:+ String (byte 34) "").

Definition game : Game.t :=
  Game.mk 1 (clock noTime 1 false) 7 "demo" 19 nil "" PlayPhase
    {[ "1" := player 1 "ann" (F32.of_int 25) ]}
    (Players.mk (player 1 "ann" (F32.of_int 25))
                (player 2 "bob" (F32.of_int 31)))
    (timeControl ClockByoyomi 30) 2 19 0.

Definition state (moveNumber : Z) (lastMove : OriginCoordinate)
  : GameState.t :=
  GameState.mk PlayPhase moveNumber lastMove 1 "" nil nil.

(** The game of [game], finished: won by [winnerID] with [outcome]. *)
Definition finishedGame (winnerID : Z) (outcome : string) : Game.t :=
  Game.mk 1 (clock noTime 1 false) 7 "demo" 19 nil outcome FinishedPhase
    {[ "1" := player 1 "ann" (F32.of_int 25) ]}
    (Players.mk (player 1 "ann" (F32.of_int 25))
                (player 2 "bob" (F32.of_int 31)))
    (timeControl ClockByoyomi 30) 2 19 winnerID.

(** The time control of the simple discipline: [perMove] seconds a move. *)
Definition simpleTimeControl (perMove : float) : TimeControl.t :=
  TimeControl.mk ClockSimple "live" false 0 0 0 0 0 0 0 0 0 0 perMove.
End Fixtures.

(** ** Parsing: [strconv], [strings] and [NewA1Coordinate] *)

(** [strconv.ParseInt(s, 10, 64)], which is also [strconv.Atoi] on a 64-bit
    platform: an optional sign, then one or more decimal digits; [None] is
    the error return (syntax, or a value that does not fit [int64]). *)
Definition ParseInt (s : string) : option Z :=
  match s with
  | EmptyString => None
  | String a rest =>
      let '(neg, digits) :=
        if Ascii.eqb a "+" then (false, rest)
        else if Ascii.eqb a "-" then (true, rest)
        else (false, s) in
      match NilZero.uint_of_string digits with
      | None => None
      | Some d =>
          let n := Z.of_uint d in
          let z := if neg then - n else n in
          if in_int64 z then Some z else None
      end
  end.

Definition Atoi : string -> option Z := ParseInt.

(** The byte of a string as an integer. *)
Definition byteValue (c : ascii) : Z := Z.of_N (N_of_ascii c).

Definition isASCII (s : string) : bool :=
  forallb (fun c => byteValue c <? 128) (list_ascii_of_string s).

(** The upper case of an ASCII letter: ['a' <= c <= 'z'] gives [c - ('a' -
    'A')]. *)
Definition upperByte (c : ascii) : ascii :=
  if (rune_a <=? byteValue c) && (byteValue c <=? rune_z)
  then byte (byteValue c - (rune_a - rune_A))
  else c.

Fixpoint upperBytes (s : string) : string :=
  match s with
  | EmptyString => EmptyString
  | String c rest => String (upperByte c) (upperBytes rest)
  end.

Section Upper.
(** [strings.Map(unicode.ToUpper, s)], the path [strings.ToUpper] takes on
    a string that is not all ASCII. *)
Variable mapUnicodeToUpper : string -> string.

(** [strings.ToUpper]: the bytes are mapped one by one when all of them
    are ASCII. *)
Definition ToUpper (s : string) : string :=
  if isASCII s then upperBytes s else mapUnicodeToUpper s.

(** [NewA1Coordinate] creates an instance from a coordinate string in
    format "A1".  [ToUpper] keeps every character, so its result has a
    first byte whenever [coord] has one: the empty case of the [match]
    stands for an indexing that cannot go out of range. *)
Definition NewA1Coordinate (coord : string) : option A1Coordinate :=
  if Z.of_nat (String.length coord) <? 2 then None
  else
    match ToUpper coord, coord with
    | String c _, String _ row =>
        let col := byteValue c in
        if (col <? rune_A) || (col >? rune_Z) || (col =? rune_I) then None
        else
          match Atoi row with
          | None => None
          | Some rowNum =>
              if (rowNum <=? 0) || (rowNum >? 25) then None
              else Some (mkA1 col rowNum)
          end
    | _, _ => None
    end.

(** The conversion of a typed move in [playMove]: parse, then convert for
    the board. *)
Definition parseMove (op : string) (boardSize : Z) : option OriginCoordinate :=
  match NewA1Coordinate op with
  | None => None
  | Some a1 => ToOriginCoordinate a1 boardSize
  end.
End Upper.

(** [time.Unix(sec, 0)] and [time.UnixMilli(msec)]. *)
Definition Unix (sec : Z) : Time := sec * Second.
Definition UnixMilli (msec : Z) : Time := msec * 1000000.

(** [Timestamp.UnmarshalJSON] is a customized JSON decoder for properly
    handling timestamps represented in both seconds or milliseconds;
    [None] is the error return. *)
Definition Timestamp_UnmarshalJSON (b : string) : option Timestamp :=
  match ParseInt b with
  | None => None
  | Some ts =>
      if ts >? 1000000000000 then Some (UnixMilli ts)  (* Assume milliseconds *)
      else Some (Unix ts)
  end.

(** [strings.Split(s, "/")]: the substrings between the slashes. *)
Fixpoint Split_slash (s : string) : list string :=
  match s with
  | EmptyString => [EmptyString]
  | String c rest =>
      if Ascii.eqb c "/" then EmptyString :: Split_slash rest
      else
        match Split_slash rest with
        | part :: parts => String c part :: parts
        | [] => [String c EmptyString]
        end
  end.

(** [parseGameID] can also take a URL like https://online-go.com/game/123 *)
Definition parseGameID (s : string) : option Z :=
  let parts := Split_slash ("/" +:+ s) in
  let last := List.last parts EmptyString in
  ParseInt last.

(** The SGF coordinates of the points of one row that are marked 1: the
    inner loop of [RemovalString], at row [y], from column [x] on.  The sum
    ['a' + x] is an [int] converted to a rune: reduced to 32 bits. *)
Fixpoint removalRow (y x : Z) (row : list Z) : list string :=
  match row with
  | [] => []
  | val :: rest =>
      (if val =? 1
       then [Sprintf_c (wrap32 (rune_a + x)) +:+ Sprintf_c (wrap32 (rune_a + y))]
       else [])
      ++ removalRow y (x + 1) rest
  end.

(** The outer loop of [RemovalString], from row [y] on. *)
Fixpoint removalPairs (y : Z) (rows : list (list Z)) : list string :=
  match rows with
  | [] => []
  | row :: rest => removalRow y 0 row ++ removalPairs (y + 1) rest
  end.

(** [GameState.RemovalString]: the pairs joined with [strings.Join(pairs,
    "")]. *)
Definition RemovalString (g : GameState.t) : string :=
  String.concat EmptyString (removalPairs 0 (GameState.Removal g)).

(** The number of points marked 1. *)
Definition removedCount (g : GameState.t) : nat :=
  List.length (List.filter (fun val => val =? 1) (List.concat (GameState.Removal g))).

(** [OriginCoordinate.String]: the verbs [[%d,%d]]. *)
Definition OriginCoordinate_String (c : OriginCoordinate) : string :=
  "[" +:+ Sprintf_d (X c) +:+ "," +:+ Sprintf_d (Y c) +:+ "]".

(** The integers [lo], [lo + 1], ..., [lo + n - 1]. *)
Definition zrange (lo : Z) (n : nat) : list Z :=
  map (fun i => lo + Z.of_nat i) (seq 0 n).

(** ** Coordinate converter: proofs *)

Lemma wrap32_small (z : Z) : - 2 ^ 31 <= z < 2 ^ 31 -> wrap32 z = z.
Proof.
  intros Hz. unfold wrap32, wrap.
  rewrite Z.mod_small; lia.
Qed.

Lemma wrap64_small (z : Z) : - 2 ^ 63 <= z < 2 ^ 63 -> wrap64 z = z.
Proof.
  intros Hz. unfold wrap64, wrap.
  rewrite Z.mod_small; lia.
Qed.

(** On an in-bounds coordinate the forward conversion succeeds with the
    column letter ['A' + x] (one more from the ninth column on) and the row
    [boardSize - y]. *)
Lemma ToA1Coordinate_in_bounds (x y boardSize : Z) :
  0 <= x < boardSize -> 0 <= y < boardSize -> boardSize <= 25 ->
  ToA1Coordinate (mkOrigin x y) boardSize =
    Some (mkA1 (if x >=? 8 then rune_A + x + 1 else rune_A + x) (boardSize - y)).
Proof.
  intros Hx Hy Hb. unfold ToA1Coordinate; cbn [X Y].
  assert (Hg : (x <? 0) || (x >=? boardSize) || (y <? 0) || (y >=? boardSize) = false).
  { rewrite !orb_false_iff. repeat split; lia. }
  rewrite Hg. unfold rune_A.
  rewrite (wrap32_small x) by lia.
  rewrite (wrap32_small (65 + x)) by lia.
  rewrite (wrap64_small (boardSize - y)) by lia.
  destruct (x >=? 8); [rewrite wrap32_small by lia|]; reflexivity.
Qed.

(** C2, the failing input: on a 25x25 board the twentieth column converts
    to the letter 'U', which the reverse conversion rejects. *)
Lemma roundTrip_fails_on_column_U :
  ToA1Coordinate (mkOrigin 19 0) 25 = Some (mkA1 85 25) /\
  ToOriginCoordinate (mkA1 85 25) 25 = None /\
  roundTrip (mkOrigin 19 0) 25 = None.
Proof. repeat split; vm_compute; reflexivity. Qed.

(** C2, amended: for every board size [0 < boardSize <= 25] and every
    coordinate [(x, y)] with [0 <= x, y < boardSize] whose column is one of
    the first nineteen ([x <= 18], so every coordinate of a board of size at
    most 19), [ToA1Coordinate] succeeds and [ToOriginCoordinate] of its
    result succeeds and returns exactly [(x, y)]. *)
Theorem roundTrip_first_19_columns (x y boardSize : Z) :
  0 < boardSize <= 25 ->
  0 <= x < boardSize -> 0 <= y < boardSize -> x <= 18 ->
  exists a1,
    ToA1Coordinate (mkOrigin x y) boardSize = Some a1 /\
    ToOriginCoordinate a1 boardSize = Some (mkOrigin x y).
Proof.
  intros Hb Hx Hy Hc.
  eexists; split; [apply ToA1Coordinate_in_bounds; lia|].
  unfold ToOriginCoordinate; cbn [Col Row].
  unfold rune_a, rune_z, rune_A, rune_H, rune_J, rune_T.
  rewrite (wrap64_small (boardSize - (boardSize - y))) by lia.
  replace (boardSize - (boardSize - y)) with y by lia.
  destruct (Z.geb_spec x 8) as [H8|H8].
  - replace ((65 + x + 1 >=? 97) && (65 + x + 1 <=? 122)) with false
      by (symmetry; apply andb_false_iff; left; lia).
    replace ((65 + x + 1 >=? 65) && (65 + x + 1 <=? 72)) with false
      by (symmetry; apply andb_false_iff; right; lia).
    replace ((65 + x + 1 >=? 74) && (65 + x + 1 <=? 84)) with true
      by (symmetry; apply andb_true_iff; split; lia).
    rewrite wrap32_small by lia.
    replace (65 + x + 1 - 65 - 1) with x by lia.
    replace ((x <? 0) || (x >=? boardSize) || (y <? 0) || (y >=? boardSize))
      with false; [reflexivity|].
    symmetry. rewrite !orb_false_iff. repeat split; lia.
  - replace ((65 + x >=? 97) && (65 + x <=? 122)) with false
      by (symmetry; apply andb_false_iff; left; lia).
    replace ((65 + x >=? 65) && (65 + x <=? 72)) with true
      by (symmetry; apply andb_true_iff; split; lia).
    rewrite wrap32_small by lia.
    replace (65 + x - 65) with x by lia.
    replace ((x <? 0) || (x >=? boardSize) || (y <? 0) || (y >=? boardSize))
      with false; [reflexivity|].
    symmetry. rewrite !orb_false_iff. repeat split; lia.
Qed.

Lemma roundTrip_first_19_columns_witness :
  exists a1,
    ToA1Coordinate (mkOrigin 8 0) 9 = Some a1 /\
    ToOriginCoordinate a1 9 = Some (mkOrigin 8 0).
Proof. apply (roundTrip_first_19_columns 8 0 9); lia. Defined.

(** ** Floating-point comparisons against the threshold *)

Lemma Prim2SF_eps : Prim2SF eps = S754_finite false 7555786372591432 (-76).
Proof. vm_compute. reflexivity. Qed.

Lemma Prim2SF_zero : Prim2SF 0 = S754_zero false.
Proof. vm_compute. reflexivity. Qed.

(** A time that is not under the threshold is positive. *)
Lemma ltb_eps_false_leb_zero (m : float) :
  (m <? eps)%float = false -> (m <=? 0)%float = false.
Proof.
  rewrite ltb_spec, leb_spec, Prim2SF_eps, Prim2SF_zero.
  destruct (Prim2SF m) as [s|s| |s mm e]; intros H.
  - destruct s; discriminate H.
  - destruct s; [discriminate H | reflexivity].
  - reflexivity.
  - destruct s; [discriminate H | reflexivity].
Qed.

(** The main time left by [mainAndOverTime] is zero or at least the
    threshold, so testing it against the threshold is testing it against
    zero. *)
Lemma mainAndOverTime_ltb_eps (thinkingTime elapsed : float) :
  let mainTime := fst (Clock.mainAndOverTime thinkingTime elapsed) in
  (mainTime <? eps)%float = (mainTime <=? 0)%float.
Proof.
  unfold Clock.mainAndOverTime.
  destruct (eps <? thinkingTime)%float; [|reflexivity].
  destruct (thinkingTime - elapsed <? eps)%float eqn:E; cbn [fst].
  - reflexivity.
  - rewrite E. symmetry. apply ltb_eps_false_leb_zero, E.
Qed.

(** ** Clock engine: proofs *)


(** C4.  For the absolute and fischer systems, [ComputeClock] returns
    [mainTime = max(0, thinkingTime - elapsed)] when the queried player is
    on turn (elapsed being zero while the game is in start mode) and
    [mainTime = thinkingTime] otherwise, with [SuddenDeath = (mainTime <
    10)] and [TimedOut] the comparison of [mainTime] with the threshold
    [1e-7]; in particular, on turn with 40s of thinking time, 10s elapsed
    leave 30s and neither flag set, and 35s elapsed leave 5s in sudden
    death. *)
Theorem absolute_fischer_clock :
  (forall (now : Time) (c : Clock.t) (tc : TimeControl.t)
          (player : PlayerColor) (t : PlayerTime.t) (isTurn : bool),
      TimeControl.System tc = ClockAbsolute
      \/ TimeControl.System tc = ClockFischer ->
      Clock.playerTimeAndTurn c player = Some (t, isTurn) ->
      exists cc,
        Clock.ComputeClock now c tc player = Some cc
        /\ ComputedClock.System cc = TimeControl.System tc
        /\ ComputedClock.MainTime cc =
             (if isTurn then
                Max 0 (PlayerTime.ThinkingTime t
                       - (if Clock.StartMode c then 0
                          else Seconds (Since now (Clock.LastMove c))))%float
              else PlayerTime.ThinkingTime t)
        /\ ComputedClock.SuddenDeath cc = (ComputedClock.MainTime cc <? 10)%float
        /\ ComputedClock.TimedOut cc = (ComputedClock.MainTime cc <? eps)%float)
  /\ Clock.ComputeClock (Fixtures.lastMove + 10 * Second)
       (Fixtures.clock Fixtures.fortySeconds 1 false)
       (Fixtures.timeControl ClockAbsolute 0) PlayerBlack
     = Some (ComputedClock.mk ClockAbsolute 30 0 0 0 0 false false)
  /\ Clock.ComputeClock (Fixtures.lastMove + 35 * Second)
       (Fixtures.clock Fixtures.fortySeconds 1 false)
       (Fixtures.timeControl ClockAbsolute 0) PlayerBlack
     = Some (ComputedClock.mk ClockAbsolute 5 0 0 0 0 true false).
Proof.
  split; [|split; vm_compute; reflexivity].
  intros now c tc player t isTurn Hsys Hplayer.
  assert (Hsel : String.eqb (TimeControl.System tc) ClockAbsolute
                 || String.eqb (TimeControl.System tc) ClockFischer = true)
    by (destruct Hsys as [-> | ->]; reflexivity).
  unfold Clock.ComputeClock. rewrite Hplayer. cbv zeta. rewrite Hsel.
  eexists. split; [reflexivity|].
  - cbn [ComputedClock.System ComputedClock.MainTime
         ComputedClock.SuddenDeath ComputedClock.TimedOut].
    repeat split.
    unfold Clock.elapsedAt, cond.
    destruct isTurn; [|reflexivity].
    destruct (Clock.StartMode c); reflexivity.
Qed.

Lemma absolute_fischer_clock_witness :
  exists cc,
    Clock.ComputeClock (Fixtures.lastMove + 10 * Second)
      (Fixtures.clock Fixtures.fortySeconds 2 false)
      (Fixtures.timeControl ClockFischer 0) PlayerBlack = Some cc
    /\ ComputedClock.System cc = ClockFischer
    /\ ComputedClock.MainTime cc = 40%float
    /\ ComputedClock.SuddenDeath cc = (ComputedClock.MainTime cc <? 10)%float
    /\ ComputedClock.TimedOut cc = (ComputedClock.MainTime cc <? eps)%float.
Proof.
  apply (proj1 absolute_fischer_clock (Fixtures.lastMove + 10 * Second)
           (Fixtures.clock Fixtures.fortySeconds 2 false)
           (Fixtures.timeControl ClockFischer 0) PlayerBlack
           Fixtures.fortySeconds false).
  - right. reflexivity.
  - reflexivity.
Defined.

(** [ComputeClock] on a byoyomi time control and a recognized player. *)
Lemma ComputeClock_byoyomi (now : Time) (c : Clock.t) (tc : TimeControl.t)
    (player : PlayerColor) (t : PlayerTime.t) (isTurn : bool) :
  TimeControl.System tc = ClockByoyomi ->
  Clock.playerTimeAndTurn c player = Some (t, isTurn) ->
  Clock.ComputeClock now c tc player =
    let '(mainTime, periodsLeft, periodTimeLeft) :=
      if isTurn then
        let '(mainTime, overTime) :=
          Clock.mainAndOverTime (PlayerTime.ThinkingTime t)
            (Clock.elapsedAt now c isTurn) in
        if (eps <? overTime)%float then
          let periodsUsed :=
            Floor (overTime / TimeControl.PeriodTime tc)%float in
          (mainTime,
           Z.max 0 (wrap64 (PlayerTime.Periods t - int_of_float64 periodsUsed)),
           clampEps (TimeControl.PeriodTime tc
                     - (overTime - periodsUsed * TimeControl.PeriodTime tc))%float)
        else (mainTime, PlayerTime.Periods t, PlayerTime.PeriodTime t)
      else
        (PlayerTime.ThinkingTime t, PlayerTime.Periods t,
         TimeControl.PeriodTime tc) in
    Some (ComputedClock.mk ClockByoyomi mainTime periodsLeft periodTimeLeft
            0 0%float (periodsLeft <=? 1)
            ((mainTime <? eps)%float && (periodsLeft <? 0))).
Proof.
  intros Hsys Hplayer.
  unfold Clock.ComputeClock. rewrite Hplayer. cbv zeta. rewrite Hsys.
  change (String.eqb ClockByoyomi ClockAbsolute
          || String.eqb ClockByoyomi ClockFischer) with false.
  change (String.eqb ClockByoyomi ClockByoyomi) with true.
  cbv iota.
  destruct isTurn; [|reflexivity].
  destruct (Clock.mainAndOverTime _ _) as [mainTime overTime].
  destruct (eps <? overTime)%float; [|reflexivity].
  unfold clampEps, cond.
  match goal with
  | |- context [wrap64 ?z >? 0] =>
      replace (if wrap64 z >? 0 then wrap64 z else 0) with (Z.max 0 (wrap64 z))
        by (destruct (Z.gtb_spec (wrap64 z) 0); lia)
  end.
  reflexivity.
Qed.

(** C3, as stated, fails: off turn the period time reported is the time
    control's period length (30s here), not the snapshot's period time left
    (12s) nor the snapshot's period time (25s). *)
Lemma byoyomi_off_turn_ignores_snapshot_period_time :
  let t := Fixtures.inByoyomi 3 25 in
  Clock.ComputeClock (Fixtures.lastMove + 45 * Second)
    (Fixtures.clock t 2 false) (Fixtures.timeControl ClockByoyomi 30)
    PlayerBlack
  = Some (ComputedClock.mk ClockByoyomi 0 3 30 0 0 false false)
  /\ PlayerTime.PeriodTimeLeft t = 12%float
  /\ PlayerTime.PeriodTime t = 25%float
  /\ (30 =? PlayerTime.PeriodTimeLeft t)%float = false
  /\ (30 =? PlayerTime.PeriodTime t)%float = false.
Proof. repeat split; vm_compute; reflexivity. Qed.

(** C3, amended.  For every byoyomi clock query where the queried player
    is not on turn, [ComputeClock] reports the snapshot's periods count
    unchanged, the time control's period length as the period time left,
    and [mainTime] equal to the snapshot's thinking time, with no depletion
    applied (whatever the evaluation instant). *)
Theorem byoyomi_off_turn (now : Time) (c : Clock.t) (tc : TimeControl.t)
    (player : PlayerColor) (t : PlayerTime.t) :
  TimeControl.System tc = ClockByoyomi ->
  Clock.playerTimeAndTurn c player = Some (t, false) ->
  exists cc,
    Clock.ComputeClock now c tc player = Some cc
    /\ ComputedClock.PeriodsLeft cc = PlayerTime.Periods t
    /\ ComputedClock.PeriodTimeLeft cc = TimeControl.PeriodTime tc
    /\ ComputedClock.MainTime cc = PlayerTime.ThinkingTime t.
Proof.
  intros Hsys Hplayer.
  rewrite (ComputeClock_byoyomi now c tc player t false Hsys Hplayer).
  eexists. split; [reflexivity|]. repeat split.
Qed.

Lemma byoyomi_off_turn_witness :
  exists cc,
    Clock.ComputeClock (Fixtures.lastMove + 45 * Second)
      (Fixtures.clock (Fixtures.inByoyomi 3 25) 2 false)
      (Fixtures.timeControl ClockByoyomi 30) PlayerBlack = Some cc
    /\ ComputedClock.PeriodsLeft cc = 3
    /\ ComputedClock.PeriodTimeLeft cc = 30%float
    /\ ComputedClock.MainTime cc = 0%float.
Proof.
  apply (byoyomi_off_turn (Fixtures.lastMove + 45 * Second)
           (Fixtures.clock (Fixtures.inByoyomi 3 25) 2 false)
           (Fixtures.timeControl ClockByoyomi 30) PlayerBlack
           (Fixtures.inByoyomi 3 25)); reflexivity.
Defined.

(** C1, as stated, fails: with the main time used up, three periods of
    30s left and 29.99999995s elapsed, the source reports a period time
    left of zero, whereas the specified formula [max(0, periodLength -
    (overTime - periodsUsed * periodLength))] is positive (about 5e-8). *)
Lemma byoyomi_period_time_clamped_at_threshold :
  let overTime := Seconds Fixtures.almostThirtySeconds in
  Clock.ComputeClock (Fixtures.lastMove + Fixtures.almostThirtySeconds)
    (Fixtures.clock (Fixtures.inByoyomi 3 30) 1 false)
    (Fixtures.timeControl ClockByoyomi 30) PlayerBlack
  = Some (ComputedClock.mk ClockByoyomi 0 3 0 0 0 false false)
  /\ Clock.mainAndOverTime 0 (Seconds Fixtures.almostThirtySeconds)
     = (0%float, overTime)
  /\ (0 <? AsSpecified.periodTimeLeft overTime 30)%float = true.
Proof. repeat split; vm_compute; reflexivity. Qed.

(** C1, amended.  For every byoyomi clock query where the queried player
    is on turn and the game has left start-mode, [ComputeClock] depletes
    main time first, with the threshold [1e-7].  With [d = thinkingTime -
    elapsed]: if [thinkingTime] exceeds the threshold and [d] is not below
    it, then [mainTime = d] and [overTime = 0]; if [thinkingTime] exceeds
    the threshold and [d] is below it, then [mainTime = 0] and [overTime =
    -d]; otherwise [mainTime = 0] and [overTime = elapsed].  When
    [overTime] exceeds the threshold: [periodsUsed = floor(overTime /
    periodLength)], [periodsLeft = max(0, snapshotPeriods - periodsUsed)],
    and [periodTimeLeft = periodLength - (overTime - periodsUsed *
    periodLength)] if that exceeds the threshold, else zero; otherwise the
    snapshot's periods and period time are reported unchanged.
    [SuddenDeath = (periodsLeft <= 1)] and [TimedOut = (mainTime <= 0 AND
    periodsLeft < 0)].  In particular with [thinkingTime = 0], one period
    in the snapshot, [periodLength = 30s] and 45s elapsed, [periodsLeft =
    0] and [periodTimeLeft = 15]. *)
Theorem byoyomi_on_turn :
  (forall (now : Time) (c : Clock.t) (tc : TimeControl.t)
          (player : PlayerColor) (t : PlayerTime.t),
      TimeControl.System tc = ClockByoyomi ->
      Clock.playerTimeAndTurn c player = Some (t, true) ->
      Clock.StartMode c = false ->
      let elapsed := Seconds (Since now (Clock.LastMove c)) in
      let thinkingTime := PlayerTime.ThinkingTime t in
      let d := (thinkingTime - elapsed)%float in
      let mainTime :=
        if (eps <? thinkingTime)%float then
          if (d <? eps)%float then 0%float else d
        else 0%float in
      let overTime :=
        if (eps <? thinkingTime)%float then
          if (d <? eps)%float then (- d)%float else 0%float
        else elapsed in
      let periodLength := TimeControl.PeriodTime tc in
      let periodsUsed := Floor (overTime / periodLength)%float in
      exists cc,
        Clock.ComputeClock now c tc player = Some cc
        /\ ComputedClock.MainTime cc = mainTime
        /\ (if (eps <? overTime)%float then
              ComputedClock.PeriodsLeft cc =
                Z.max 0 (wrap64 (PlayerTime.Periods t
                                 - int_of_float64 periodsUsed))
              /\ ComputedClock.PeriodTimeLeft cc =
                   (let left :=
                      (periodLength
                       - (overTime - periodsUsed * periodLength))%float in
                    if (eps <? left)%float then left else 0%float)
            else
              ComputedClock.PeriodsLeft cc = PlayerTime.Periods t
              /\ ComputedClock.PeriodTimeLeft cc = PlayerTime.PeriodTime t)
        /\ ComputedClock.SuddenDeath cc = (ComputedClock.PeriodsLeft cc <=? 1)
        /\ ComputedClock.TimedOut cc =
             (ComputedClock.MainTime cc <=? 0)%float
             && (ComputedClock.PeriodsLeft cc <? 0))
  /\ Clock.ComputeClock (Fixtures.lastMove + 45 * Second)
       (Fixtures.clock (Fixtures.inByoyomi 1 30) 1 false)
       (Fixtures.timeControl ClockByoyomi 30) PlayerBlack
     = Some (ComputedClock.mk ClockByoyomi 0 0 15 0 0 true false).
Proof.
  split; [|vm_compute; reflexivity].
  intros now c tc player t Hsys Hplayer Hstart elapsed thinkingTime d
    mainTime overTime periodLength periodsUsed.
  rewrite (ComputeClock_byoyomi now c tc player t true Hsys Hplayer).
  unfold Clock.elapsedAt, cond. rewrite Hstart. cbn [andb negb].
  fold elapsed. fold thinkingTime.
  pose proof (mainAndOverTime_ltb_eps thinkingTime elapsed) as Hmain.
  cbv zeta in Hmain.
  assert (Hpair : Clock.mainAndOverTime thinkingTime elapsed
                  = (mainTime, overTime)).
  { unfold Clock.mainAndOverTime. subst mainTime overTime d. cbv zeta.
    destruct (eps <? thinkingTime)%float; [|reflexivity].
    destruct (thinkingTime - elapsed <? eps)%float; reflexivity. }
  rewrite Hpair in Hmain. rewrite Hpair. cbn [fst] in Hmain.
  clearbody mainTime overTime.
  subst periodsUsed periodLength. unfold clampEps, cond.
  destruct (eps <? overTime)%float; eexists; (split; [reflexivity|]);
    cbn [ComputedClock.MainTime ComputedClock.PeriodsLeft
         ComputedClock.PeriodTimeLeft ComputedClock.SuddenDeath
         ComputedClock.TimedOut];
    rewrite Hmain; repeat split.
Qed.

Lemma byoyomi_on_turn_witness :
  (exists cc,
      Clock.ComputeClock (Fixtures.lastMove + 100 * Second)
        (Fixtures.clock (Fixtures.withMainTime 20 5 25) 1 false)
        (Fixtures.timeControl ClockByoyomi 30) PlayerBlack = Some cc
      /\ ComputedClock.MainTime cc = 0%float
      /\ (ComputedClock.PeriodsLeft cc = 3
          /\ ComputedClock.PeriodTimeLeft cc = 10%float)
      /\ ComputedClock.SuddenDeath cc = (ComputedClock.PeriodsLeft cc <=? 1)
      /\ ComputedClock.TimedOut cc =
           (ComputedClock.MainTime cc <=? 0)%float
           && (ComputedClock.PeriodsLeft cc <? 0))
  /\ (exists cc,
        Clock.ComputeClock (Fixtures.lastMove + 5 * Second)
          (Fixtures.clock (Fixtures.withMainTime 20 5 25) 1 false)
          (Fixtures.timeControl ClockByoyomi 30) PlayerBlack = Some cc
        /\ ComputedClock.MainTime cc = 15%float
        /\ (ComputedClock.PeriodsLeft cc = 5
            /\ ComputedClock.PeriodTimeLeft cc = 25%float)
        /\ ComputedClock.SuddenDeath cc = (ComputedClock.PeriodsLeft cc <=? 1)
        /\ ComputedClock.TimedOut cc =
             (ComputedClock.MainTime cc <=? 0)%float
             && (ComputedClock.PeriodsLeft cc <? 0)).
Proof.
  split.
  - apply (proj1 byoyomi_on_turn (Fixtures.lastMove + 100 * Second)
             (Fixtures.clock (Fixtures.withMainTime 20 5 25) 1 false)
             (Fixtures.timeControl ClockByoyomi 30) PlayerBlack
             (Fixtures.withMainTime 20 5 25)); reflexivity.
  - apply (proj1 byoyomi_on_turn (Fixtures.lastMove + 5 * Second)
             (Fixtures.clock (Fixtures.withMainTime 20 5 25) 1 false)
             (Fixtures.timeControl ClockByoyomi 30) PlayerBlack
             (Fixtures.withMainTime 20 5 25)); reflexivity.
Defined.

(** ** The renderer's "Timeout" branch *)

Lemma append_nil (b : string) : EmptyString +:+ b = b.
Proof. reflexivity. Qed.

Lemma append_cons (ch : ascii) (a b : string) :
  String ch a +:+ b = String ch (a +:+ b).
Proof. reflexivity. Qed.

Lemma lastByte_append (a b : string) :
  b <> EmptyString -> lastByte (a +:+ b) = lastByte b.
Proof.
  intros Hb. induction a as [|ch a IH]; [reflexivity|].
  rewrite append_cons.
  destruct (a +:+ b) eqn:E.
  - destruct a; [rewrite append_nil in E; congruence | discriminate E].
  - exact IH.
Qed.

Lemma append_nonempty (a b : string) :
  b <> EmptyString -> a +:+ b <> EmptyString.
Proof.
  intros Hb. destruct a; [rewrite append_nil; exact Hb|].
  rewrite append_cons. discriminate.
Qed.

(** Proves a concatenation that ends with a literal non-empty. *)
Ltac nonempty := repeat apply append_nonempty; discriminate.

Lemma lastByte_closing (a b : string) :
  lastByte b = Some ")"%char -> a +:+ b <> "Timeout".
Proof.
  intros Hb Heq.
  assert (Hne : b <> EmptyString) by (intros ->; discriminate Hb).
  pose proof (lastByte_append a b Hne) as Hlast.
  rewrite Heq, Hb in Hlast. discriminate Hlast.
Qed.

(** A byoyomi clock that is not timed out never renders as "Timeout":
    each of its renderings ends with a closing parenthesis. *)
Lemma byoyomi_String_not_Timeout (cc : ComputedClock.t) :
  ComputedClock.System cc = ClockByoyomi ->
  ComputedClock.TimedOut cc = false ->
  ComputedClock.String cc <> "Timeout".
Proof.
  intros Hsys Hto. unfold ComputedClock.String. rewrite Hto, Hsys.
  change (String.eqb ClockByoyomi ClockAbsolute
          || String.eqb ClockByoyomi ClockFischer
          || String.eqb ClockByoyomi ClockSimple) with false.
  change (String.eqb ClockByoyomi ClockByoyomi) with true. cbv iota.
  destruct (ComputedClock.SuddenDeath cc);
    [|destruct (0 <? ComputedClock.MainTime cc)%float];
    apply lastByte_closing;
    repeat (rewrite lastByte_append by nonempty); reflexivity.
Qed.

(** C10.  For every byoyomi clock query whose snapshot reports a
    non-negative periods count, the periods left are non-negative (clamped
    on turn, the snapshot's value off turn), so the computed [TimedOut]
    flag is false and the clock renderer does not take its "Timeout"
    branch. *)
Theorem byoyomi_never_timed_out (now : Time) (c : Clock.t)
    (tc : TimeControl.t) (player : PlayerColor) (t : PlayerTime.t)
    (isTurn : bool) :
  TimeControl.System tc = ClockByoyomi ->
  Clock.playerTimeAndTurn c player = Some (t, isTurn) ->
  0 <= PlayerTime.Periods t ->
  exists cc,
    Clock.ComputeClock now c tc player = Some cc
    /\ 0 <= ComputedClock.PeriodsLeft cc
    /\ ComputedClock.TimedOut cc = false
    /\ ComputedClock.String cc <> "Timeout".
Proof.
  intros Hsys Hplayer Hperiods.
  rewrite (ComputeClock_byoyomi now c tc player t isTurn Hsys Hplayer).
  assert (Hgoal : forall mainTime periodsLeft periodTimeLeft,
    0 <= periodsLeft ->
    exists cc,
      Some (ComputedClock.mk ClockByoyomi mainTime periodsLeft periodTimeLeft
              0 0%float (periodsLeft <=? 1)
              ((mainTime <? eps)%float && (periodsLeft <? 0))) = Some cc
      /\ 0 <= ComputedClock.PeriodsLeft cc
      /\ ComputedClock.TimedOut cc = false
      /\ ComputedClock.String cc <> "Timeout").
  { intros mainTime periodsLeft periodTimeLeft Hle.
    assert (Hto : (mainTime <? eps)%float && (periodsLeft <? 0) = false).
    { apply andb_false_iff. right. apply Z.ltb_ge, Hle. }
    eexists. split; [reflexivity|].
    split; [exact Hle|]. split; [exact Hto|].
    apply byoyomi_String_not_Timeout; [reflexivity | exact Hto]. }
  destruct isTurn; [|apply Hgoal, Hperiods].
  destruct (Clock.mainAndOverTime _ _) as [mainTime overTime].
  destruct (eps <? overTime)%float; apply Hgoal; lia.
Qed.

Lemma byoyomi_never_timed_out_witness :
  exists cc,
    Clock.ComputeClock (Fixtures.lastMove + 45 * Second)
      (Fixtures.clock (Fixtures.inByoyomi 1 30) 1 false)
      (Fixtures.timeControl ClockByoyomi 30) PlayerBlack = Some cc
    /\ 0 <= ComputedClock.PeriodsLeft cc
    /\ ComputedClock.TimedOut cc = false
    /\ ComputedClock.String cc <> "Timeout".
Proof.
  apply (byoyomi_never_timed_out (Fixtures.lastMove + 45 * Second)
           (Fixtures.clock (Fixtures.inByoyomi 1 30) 1 false)
           (Fixtures.timeControl ClockByoyomi 30) PlayerBlack
           (Fixtures.inByoyomi 1 30) true);
    [reflexivity | reflexivity | vm_compute; discriminate].
Defined.

(** ** Canadian *)

(** [ComputeClock] on a canadian time control and a recognized player. *)
Lemma ComputeClock_canadian (now : Time) (c : Clock.t) (tc : TimeControl.t)
    (player : PlayerColor) (t : PlayerTime.t) (isTurn : bool) :
  TimeControl.System tc = ClockCanadian ->
  Clock.playerTimeAndTurn c player = Some (t, isTurn) ->
  Clock.ComputeClock now c tc player =
    let '(mainTime, blockTimeLeft) :=
      if isTurn then
        let '(mainTime, overTime) :=
          Clock.mainAndOverTime (PlayerTime.ThinkingTime t)
            (Clock.elapsedAt now c isTurn) in
        if (eps <? overTime)%float
        then (mainTime, clampEps (PlayerTime.BlockTime t - overTime)%float)
        else (mainTime, PlayerTime.BlockTime t)
      else (PlayerTime.ThinkingTime t, PlayerTime.BlockTime t) in
    Some (ComputedClock.mk ClockCanadian mainTime 0 0%float
            (PlayerTime.MovesLeft t) blockTimeLeft
            ((mainTime <? eps)%float
             && ((blockTimeLeft <? 10)%float || (PlayerTime.MovesLeft t <? 2)))
            ((mainTime <? eps)%float && (blockTimeLeft <? eps)%float)).
Proof.
  intros Hsys Hplayer.
  unfold Clock.ComputeClock. rewrite Hplayer. cbv zeta. rewrite Hsys.
  change (String.eqb ClockCanadian ClockAbsolute
          || String.eqb ClockCanadian ClockFischer) with false.
  change (String.eqb ClockCanadian ClockByoyomi) with false.
  change (String.eqb ClockCanadian ClockCanadian) with true.
  cbv iota.
  destruct isTurn; [|reflexivity].
  destruct (Clock.mainAndOverTime _ _) as [mainTime overTime].
  destruct (eps <? overTime)%float; reflexivity.
Qed.

(** C5, as stated, fails in two places.  On turn with the main time used
    up, a block of 10s and 9.99999995s elapsed, the source reports a block
    time left of zero (and a timeout), whereas the specified [max(0,
    blockTime - overTime)] is positive (about 5e-8).  Off turn with
    5e-8s of thinking time and an empty block, the source reports a
    timeout, whereas the specified test [mainTime <= 0 AND blockTimeLeft
    <= 0] is false. *)
Lemma canadian_clamped_at_threshold :
  let overTime := Seconds Fixtures.almostTenSeconds in
  Clock.ComputeClock (Fixtures.lastMove + Fixtures.almostTenSeconds)
    (Fixtures.clock (Fixtures.inCanadian 0 10) 1 false)
    (Fixtures.timeControl ClockCanadian 600) PlayerBlack
  = Some (ComputedClock.mk ClockCanadian 0 0 0 5 0 true true)
  /\ Clock.mainAndOverTime 0 overTime = (0%float, overTime)
  /\ (0 <? AsSpecified.blockTimeLeft 10 overTime)%float = true
  /\ Clock.ComputeClock Fixtures.lastMove
       (Fixtures.clock (Fixtures.inCanadian 5e-8 0) 2 false)
       (Fixtures.timeControl ClockCanadian 600) PlayerBlack
     = Some (ComputedClock.mk ClockCanadian 5e-8 0 0 5 0 true true)
  /\ AsSpecified.canadianTimedOut 5e-8 0 = false.
Proof. repeat split; vm_compute; reflexivity. Qed.

(** C5, amended.  For the canadian system, [ComputeClock] carries
    [movesLeft] from the snapshot unchanged (it never decrements the move
    count).  On turn, once the overtime left by the depletion of the main
    time exceeds the threshold [1e-7], [blockTimeLeft] is the snapshot's
    block time minus the overtime when that exceeds the threshold and zero
    otherwise; in every other case it is the snapshot's block time.
    [SuddenDeath = (mainTime < 1e-7 AND (blockTimeLeft < 10 OR movesLeft <
    2))] and [TimedOut = (mainTime < 1e-7 AND blockTimeLeft < 1e-7)]. *)
Theorem canadian_clock (now : Time) (c : Clock.t) (tc : TimeControl.t)
    (player : PlayerColor) (t : PlayerTime.t) (isTurn : bool) :
  TimeControl.System tc = ClockCanadian ->
  Clock.playerTimeAndTurn c player = Some (t, isTurn) ->
  let overTime :=
    snd (Clock.mainAndOverTime (PlayerTime.ThinkingTime t)
           (Clock.elapsedAt now c isTurn)) in
  exists cc,
    Clock.ComputeClock now c tc player = Some cc
    /\ ComputedClock.MovesLeft cc = PlayerTime.MovesLeft t
    /\ ComputedClock.BlockTimeLeft cc =
         (if isTurn && (eps <? overTime)%float
          then clampEps (PlayerTime.BlockTime t - overTime)%float
          else PlayerTime.BlockTime t)
    /\ ComputedClock.SuddenDeath cc =
         (ComputedClock.MainTime cc <? eps)%float
         && ((ComputedClock.BlockTimeLeft cc <? 10)%float
             || (ComputedClock.MovesLeft cc <? 2))
    /\ ComputedClock.TimedOut cc =
         (ComputedClock.MainTime cc <? eps)%float
         && (ComputedClock.BlockTimeLeft cc <? eps)%float.
Proof.
  intros Hsys Hplayer overTime. subst overTime.
  rewrite (ComputeClock_canadian now c tc player t isTurn Hsys Hplayer).
  destruct isTurn; cbn [andb].
  - destruct (Clock.mainAndOverTime _ _) as [mainTime overTime].
    cbn [snd].
    destruct (eps <? overTime)%float; eexists; (split; [reflexivity|]);
      repeat split.
  - eexists. split; [reflexivity|]. repeat split.
Qed.

Lemma canadian_clock_witness :
  exists cc,
    Clock.ComputeClock (Fixtures.lastMove + 4 * Second)
      (Fixtures.clock (Fixtures.inCanadian 0 10) 1 false)
      (Fixtures.timeControl ClockCanadian 600) PlayerBlack = Some cc
    /\ ComputedClock.MovesLeft cc = 5
    /\ ComputedClock.BlockTimeLeft cc = 6%float
    /\ ComputedClock.SuddenDeath cc =
         (ComputedClock.MainTime cc <? eps)%float
         && ((ComputedClock.BlockTimeLeft cc <? 10)%float
             || (ComputedClock.MovesLeft cc <? 2))
    /\ ComputedClock.TimedOut cc =
         (ComputedClock.MainTime cc <? eps)%float
         && (ComputedClock.BlockTimeLeft cc <? eps)%float.
Proof.
  apply (canadian_clock (Fixtures.lastMove + 4 * Second)
           (Fixtures.clock (Fixtures.inCanadian 0 10) 1 false)
           (Fixtures.timeControl ClockCanadian 600) PlayerBlack
           (Fixtures.inCanadian 0 10) true); reflexivity.
Defined.

(** ** Null results and the evaluation instant *)

Lemma playerTimeAndTurn_None (c : Clock.t) (player : PlayerColor) :
  Clock.playerTimeAndTurn c player = None
  <-> player <> PlayerBlack /\ player <> PlayerWhite.
Proof.
  unfold Clock.playerTimeAndTurn.
  destruct (Z.eqb_spec player PlayerBlack) as [Hb|Hb];
    [|destruct (Z.eqb_spec player PlayerWhite) as [Hw|Hw]];
    split; try discriminate; try tauto.
Qed.

Lemma knownSystem_dec (system : ClockSystem) :
  knownSystem system \/ ~ knownSystem system.
Proof.
  unfold knownSystem.
  destruct (string_dec system ClockAbsolute) as [H1|H1]; [left; auto|].
  destruct (string_dec system ClockByoyomi) as [H2|H2]; [left; auto|].
  destruct (string_dec system ClockCanadian) as [H3|H3]; [left; auto|].
  destruct (string_dec system ClockFischer) as [H4|H4]; [left; auto|].
  destruct (string_dec system ClockSimple) as [H5|H5]; [left; auto 6|].
  right. intros [H|[H|[H|[H|H]]]]; contradiction.
Qed.

(** C6.  [ComputeClock] returns null exactly when the queried player is
    neither black nor white or the configured system is not one of the five
    known disciplines; for a recognized player and a known discipline it
    returns a clock, for every snapshot and configuration (the embedding is
    a total function: no step of the source can raise on non-nil
    arguments). *)
Theorem ComputeClock_null_iff (now : Time) (c : Clock.t)
    (tc : TimeControl.t) (player : PlayerColor) :
  (Clock.ComputeClock now c tc player = None
   <-> (player <> PlayerBlack /\ player <> PlayerWhite)
       \/ ~ knownSystem (TimeControl.System tc))
  /\ ((player = PlayerBlack \/ player = PlayerWhite)
      /\ knownSystem (TimeControl.System tc)
      <-> exists cc, Clock.ComputeClock now c tc player = Some cc).
Proof.
  assert (Hnone : Clock.ComputeClock now c tc player = None
                  <-> (player <> PlayerBlack /\ player <> PlayerWhite)
                      \/ ~ knownSystem (TimeControl.System tc)).
  { rewrite <- (playerTimeAndTurn_None c player).
    unfold Clock.ComputeClock, knownSystem.
    destruct (Clock.playerTimeAndTurn c player) as [[t isTurn]|];
      [|split; [left; reflexivity | reflexivity]].
    cbv zeta.
    destruct (String.eqb_spec (TimeControl.System tc) ClockAbsolute) as [Ha|Ha];
      [cbn [orb]; split; [discriminate | intros [H|H]; [discriminate | tauto]]|].
    destruct (String.eqb_spec (TimeControl.System tc) ClockFischer) as [Hf|Hf];
      [cbn [orb]; split; [discriminate | intros [H|H]; [discriminate | tauto]]|].
    cbn [orb].
    destruct (String.eqb_spec (TimeControl.System tc) ClockByoyomi) as [Hy|Hy].
    { destruct (if isTurn then _ else _) as [[m p] q].
      split; [discriminate | intros [H|H]; [discriminate | tauto]]. }
    destruct (String.eqb_spec (TimeControl.System tc) ClockCanadian) as [Hc|Hc].
    { destruct (if isTurn then _ else _) as [[m p] q].
      split; [discriminate | intros [H|H]; [discriminate | tauto]]. }
    destruct (String.eqb_spec (TimeControl.System tc) ClockSimple) as [Hs|Hs];
      [split; [discriminate | intros [H|H]; [discriminate | tauto]]|].
    split; [intros _; right; tauto | reflexivity]. }
  split; [exact Hnone|].
  destruct (Clock.ComputeClock now c tc player) as [cc|] eqn:E.
  - split; [intros _; exists cc; reflexivity|]. intros _.
    assert (Hn : ~ ((player <> PlayerBlack /\ player <> PlayerWhite)
                    \/ ~ knownSystem (TimeControl.System tc)))
      by (intros H; apply Hnone in H; discriminate H).
    split.
    + destruct (Z.eq_dec player PlayerBlack) as [Hb|Hb]; [left; exact Hb|].
      destruct (Z.eq_dec player PlayerWhite) as [Hw|Hw]; [right; exact Hw|].
      exfalso. apply Hn. left. split; assumption.
    + destruct (knownSystem_dec (TimeControl.System tc)) as [Hk|Hk];
        [exact Hk|].
      exfalso. apply Hn. right. exact Hk.
  - split; [|intros [cc Hcc]; discriminate Hcc].
    intros [Hp Hk]. destruct (proj1 Hnone eq_refl) as [[Hb Hw]|Hs]; tauto.
Qed.

Lemma elapsedAt_paused (now1 now2 : Time) (c : Clock.t) (isTurn : bool) :
  isTurn = false \/ Clock.StartMode c = true ->
  Clock.elapsedAt now1 c isTurn = Clock.elapsedAt now2 c isTurn.
Proof.
  unfold Clock.elapsedAt. intros [-> | ->]; [reflexivity|].
  rewrite andb_false_r. reflexivity.
Qed.

(** C7.  For every clock snapshot, time-control configuration and queried
    player who is not the current turn holder, and likewise whenever the
    game is still in start mode, the result of [ComputeClock] is
    independent of the evaluation instant; and [ComputeClock] is a function
    of the snapshot, the configuration, the player and the evaluation
    instant alone. *)
Theorem ComputeClock_paused :
  (forall (now1 now2 : Time) (c : Clock.t) (tc : TimeControl.t)
          (player : PlayerColor),
      Clock.holdsTurn c player = false \/ Clock.StartMode c = true ->
      Clock.ComputeClock now1 c tc player
      = Clock.ComputeClock now2 c tc player)
  /\ (forall (now now' : Time) (c c' : Clock.t) (tc tc' : TimeControl.t)
             (player player' : PlayerColor),
         now = now' -> c = c' -> tc = tc' -> player = player' ->
         Clock.ComputeClock now c tc player
         = Clock.ComputeClock now' c' tc' player').
Proof.
  split; [|intros; subst; reflexivity].
  intros now1 now2 c tc player Hpaused.
  unfold Clock.holdsTurn in Hpaused. unfold Clock.ComputeClock.
  destruct (Clock.playerTimeAndTurn c player) as [[t isTurn]|];
    [|reflexivity].
  rewrite (elapsedAt_paused now1 now2 c isTurn Hpaused). reflexivity.
Qed.

Lemma ComputeClock_paused_witness :
  Clock.ComputeClock (Fixtures.lastMove + 10 * Second)
    (Fixtures.clock Fixtures.fortySeconds 2 false)
    (Fixtures.timeControl ClockAbsolute 0) PlayerBlack
  = Clock.ComputeClock (Fixtures.lastMove + 35 * Second)
      (Fixtures.clock Fixtures.fortySeconds 2 false)
      (Fixtures.timeControl ClockAbsolute 0) PlayerBlack.
Proof.
  apply (proj1 ComputeClock_paused). left. reflexivity.
Defined.

(** ** Player ranking *)

(** C9.  [Player.Ranking] returns "3p" for a professional player with rank
    39 (computed as rank - 36), "1p" for a non-professional with rank
    1037.1, "1d" for a non-professional with rank 30.0001, "1k" for a
    non-professional with rank 29.9999, and "?" for a non-professional with
    rank 0.9999. *)
Theorem Ranking_examples :
  Player.Ranking (Player.mk 1086650 "" true (F32.of_int 39) None) = "3p"
  /\ F32.sub (F32.of_int 39) (F32.of_int 36) = F32.of_int 3
  /\ Player.Ranking (Player.mk 0 "" false (F32.const 10371 10) None) = "1p"
  /\ Player.Ranking (Player.mk 0 "" false (F32.const 300001 10000) None) = "1d"
  /\ Player.Ranking (Player.mk 0 "" false (F32.const 299999 10000) None) = "1k"
  /\ Player.Ranking (Player.mk 0 "" false (F32.const 9999 10000) None) = "?".
Proof. repeat split; vm_compute; reflexivity. Qed.

(** ** Status formatter: proofs *)

Lemma prefix_append (sub b : string) :
  String.prefix sub (sub +:+ b) = true.
Proof.
  induction sub as [|ch sub IH]; [destruct b; reflexivity|].
  rewrite append_cons. cbn [String.prefix].
  destruct (ascii_dec ch ch); [exact IH | congruence].
Qed.

Lemma Contains_prefix (sub b : string) : Contains (sub +:+ b) sub = true.
Proof.
  unfold Contains.
  destruct (sub +:+ b) as [|ch rest] eqn:E.
  - destruct sub; [reflexivity | discriminate E].
  - cbn [index]. rewrite <- E, prefix_append. reflexivity.
Qed.

Lemma Contains_cons (ch : ascii) (s sub : string) :
  Contains s sub = true -> Contains (String ch s) sub = true.
Proof.
  unfold Contains. cbn [index]. intros H.
  destruct (String.prefix sub (String ch s)); [reflexivity|].
  destruct (index 0 sub s); [reflexivity | discriminate H].
Qed.

Lemma Contains_append (a s sub : string) :
  Contains s sub = true -> Contains (a +:+ s) sub = true.
Proof.
  intros H. induction a as [|ch a IH]; [exact H|].
  rewrite append_cons. apply Contains_cons, IH.
Qed.

(** C8, as stated, fails: before the first move the last move is the pass
    sentinel, and the status is the "Game ready" sentence, without the word
    "passed". *)
Lemma Status_pass_before_first_move :
  let state := Fixtures.state 0 (mkOrigin (-1) (-1)) in
  IsPass (GameState.LastMove state) = true
  /\ Game.Status Fixtures.quoteLetters Fixtures.game (Some state) 1
     = "Game ready, (B) ann[5k] to start"
  /\ Contains (Game.Status Fixtures.quoteLetters Fixtures.game (Some state) 1)
       "passed" = false.
Proof. repeat split; vm_compute; reflexivity. Qed.

(** C8, amended.  [Game.Status], given a null state snapshot, returns the
    game's description followed by " (unknown board state)" instead of
    failing; and for every state past the first move and not in the
    finished phase whose last move is the pass sentinel ([IsPass] true), it
    renders "<who> passed" from the move number and the turn alone, without
    converting the coordinate.  (The embedding is a function of its
    arguments: it mutates none of them.) *)
Theorem Status_fallback_and_pass (Quote : string -> string) :
  (forall (g : Game.t) (myUserID : Z),
      Game.Status Quote g None myUserID
      = Game.String Quote g +:+ " (unknown board state)"
      /\ Contains (Game.Status Quote g None myUserID)
           "(unknown board state)" = true)
  /\ (forall (g : Game.t) (state : GameState.t) (myUserID : Z),
         GameState.MoveNumber state <> 0 ->
         GameState.Phase state <> FinishedPhase ->
         IsPass (GameState.LastMove state) = true ->
         let mine := Game.IsMyGame g myUserID in
         let myMove := GameState.PlayerToMove state =? myUserID in
         let blackMove :=
           GameState.PlayerToMove state =? Game.BlackPlayerID g in
         Game.Status Quote g (Some state) myUserID
         = Sprintf_d (GameState.MoveNumber state) +:+ " moves. "
             +:+ (if mine then cond myMove "Opponent" "You"
                  else cond blackMove "White" "Black")
             +:+ " passed, "
             +:+ (if mine then cond myMove "your" "opponent's"
                  else cond blackMove "Black's" "White's")
             +:+ " turn"
         /\ Contains (Game.Status Quote g (Some state) myUserID) "passed"
            = true).
Proof.
  split.
  - intros g myUserID. split; [reflexivity|].
    cbn [Game.Status]. apply Contains_append.
    change " (unknown board state)"
      with (String " " ("(unknown board state)" +:+ "")).
    apply Contains_cons, Contains_prefix.
  - intros g state myUserID Hmove Hphase Hpass mine myMove blackMove.
    assert (Heq : Game.Status Quote g (Some state) myUserID
      = Sprintf_d (GameState.MoveNumber state) +:+ " moves. "
          +:+ (if mine then cond myMove "Opponent" "You"
               else cond blackMove "White" "Black")
          +:+ " passed, "
          +:+ (if mine then cond myMove "your" "opponent's"
               else cond blackMove "Black's" "White's")
          +:+ " turn").
    { cbn [Game.Status].
      destruct (Z.eqb_spec (GameState.MoveNumber state) 0) as [H0|_];
        [contradiction|].
      destruct (String.eqb_spec (GameState.Phase state) FinishedPhase)
        as [Hf|_]; [contradiction|].
      subst mine myMove blackMove.
      destruct (Game.IsMyGame g myUserID); rewrite Hpass; reflexivity. }
    split; [exact Heq|]. rewrite Heq.
    do 3 apply Contains_append.
    match goal with
    | |- Contains (" passed, " +:+ ?rest) _ = true =>
        change (" passed, " +:+ rest)
          with (String " " ("passed" +:+ (", " +:+ rest)))
    end.
    apply Contains_cons, Contains_prefix.
Qed.

Lemma Status_fallback_and_pass_witness :
  Game.Status Fixtures.quoteLetters Fixtures.game
    (Some (Fixtures.state 5 (mkOrigin (-1) (-1)))) 1
  = "5 moves. Opponent passed, your turn"
  /\ Contains (Game.Status Fixtures.quoteLetters Fixtures.game
                 (Some (Fixtures.state 5 (mkOrigin (-1) (-1)))) 1) "passed"
     = true.
Proof.
  apply (proj2 (Status_fallback_and_pass Fixtures.quoteLetters)
           Fixtures.game (Fixtures.state 5 (mkOrigin (-1) (-1))) 1).
  - discriminate.
  - discriminate.
  - reflexivity.
Defined.

(** ** Coordinate converter: further properties *)

(** X1.  A pass has no A1 coordinate: the forward conversion rejects every
    coordinate [IsPass] accepts, whatever the board size. *)
Theorem IsPass_ToA1Coordinate_fails (c : OriginCoordinate) (boardSize : Z) :
  IsPass c = true -> ToA1Coordinate c boardSize = None.
Proof.
  unfold IsPass, ToA1Coordinate. intros Hpass.
  apply orb_true_iff in Hpass.
  replace ((X c <? 0) || (X c >=? boardSize) || (Y c <? 0)
           || (Y c >=? boardSize)) with true; [reflexivity|].
  symmetry. rewrite !orb_true_iff.
  destruct Hpass as [H|H]; apply Z.eqb_eq in H; [left; left; left | left; right];
    apply Z.ltb_lt; lia.
Qed.

Lemma IsPass_ToA1Coordinate_fails_witness :
  ToA1Coordinate (mkOrigin (-1) (-1)) 19 = None.
Proof. apply IsPass_ToA1Coordinate_fails. reflexivity. Defined.

(** X2.  On a board of at most 25 lines the forward conversion succeeds exactly
    on the coordinates of the board, and its result is a letter from A to Z
    other than I with a row between 1 and the board size. *)
Theorem ToA1Coordinate_valid (c : OriginCoordinate) (boardSize : Z) :
  boardSize <= 25 ->
  (0 <= X c < boardSize /\ 0 <= Y c < boardSize
   <-> exists a1, ToA1Coordinate c boardSize = Some a1)
  /\ (forall a1, ToA1Coordinate c boardSize = Some a1 ->
        rune_A <= Col a1 <= rune_Z /\ Col a1 <> rune_I
        /\ 1 <= Row a1 <= boardSize).
Proof.
  intros Hb. destruct c as [x y].
  assert (Hin : 0 <= x < boardSize /\ 0 <= y < boardSize ->
                ToA1Coordinate (mkOrigin x y) boardSize =
                Some (mkA1 (if x >=? 8 then rune_A + x + 1 else rune_A + x)
                        (boardSize - y)))
    by (intros [Hx Hy]; apply ToA1Coordinate_in_bounds; assumption).
  assert (Hout : ~ (0 <= x < boardSize /\ 0 <= y < boardSize) ->
                 ToA1Coordinate (mkOrigin x y) boardSize = None).
  { intros Hn. unfold ToA1Coordinate; cbn [X Y].
    replace ((x <? 0) || (x >=? boardSize) || (y <? 0) || (y >=? boardSize))
      with true; [reflexivity|].
    symmetry. rewrite !orb_true_iff, !Z.ltb_lt, !Z.geb_le. lia. }
  cbn [X Y].
  destruct (Z_lt_dec x 0) as [Hx0|Hx0];
    [|destruct (Z_lt_dec x boardSize) as [Hxb|Hxb];
      [destruct (Z_lt_dec y 0) as [Hy0|Hy0];
       [|destruct (Z_lt_dec y boardSize) as [Hyb|Hyb]]|]];
    try (rewrite Hout by lia; split;
         [split; [lia | intros [a1 Ha1]; discriminate Ha1]
         | intros a1 Ha1; discriminate Ha1]).
  rewrite Hin by lia. split.
  - split; [intros _; eexists; reflexivity | lia].
  - intros a1 [= <-]. cbn [Col Row]. unfold rune_A, rune_Z, rune_I.
    destruct (Z.geb_spec x 8); lia.
Qed.

Lemma ToA1Coordinate_valid_witness :
  (0 <= 8 < 9 /\ 0 <= 0 < 9
   <-> exists a1, ToA1Coordinate (mkOrigin 8 0) 9 = Some a1)
  /\ (forall a1, ToA1Coordinate (mkOrigin 8 0) 9 = Some a1 ->
        rune_A <= Col a1 <= rune_Z /\ Col a1 <> rune_I /\ 1 <= Row a1 <= 9).
Proof. apply (ToA1Coordinate_valid (mkOrigin 8 0) 9). lia. Defined.

(** A successful reverse conversion lands on the board, in one of its
    first nineteen columns. *)
Lemma ToOriginCoordinate_on_board (a1 : A1Coordinate) (boardSize : Z)
    (c : OriginCoordinate) :
  ToOriginCoordinate a1 boardSize = Some c ->
  0 <= X c < boardSize /\ 0 <= Y c < boardSize /\ X c <= 18.
Proof.
  unfold ToOriginCoordinate, rune_a, rune_z, rune_A, rune_H, rune_J, rune_T.
  set (col := if (Col a1 >=? 97) && (Col a1 <=? 122)
              then wrap32 (Col a1 - (97 - 65)) else Col a1).
  assert (Hx : forall x,
             (if (col >=? 65) && (col <=? 72) then Some (wrap32 (col - 65))
              else if (col >=? 74) && (col <=? 84)
                   then Some (wrap32 (col - 65 - 1)) else None) = Some x ->
             x <= 18).
  { intros x.
    destruct ((col >=? 65) && (col <=? 72)) eqn:E1.
    - apply andb_true_iff in E1. intros [= <-].
      rewrite wrap32_small by lia. lia.
    - destruct ((col >=? 74) && (col <=? 84)) eqn:E2; [|discriminate].
      apply andb_true_iff in E2. intros [= <-].
      rewrite wrap32_small by lia. lia. }
  destruct (if (col >=? 65) && (col <=? 72) then _ else _) as [x|];
    [|discriminate].
  specialize (Hx x eq_refl).
  destruct ((x <? 0) || (x >=? boardSize)
            || (wrap64 (boardSize - Row a1) <? 0)
            || (wrap64 (boardSize - Row a1) >=? boardSize)) eqn:E;
    [discriminate|].
  intros [= <-]. cbn [X Y].
  rewrite !orb_false_iff in E. lia.
Qed.

(** X4.  The reverse conversion ignores the case of the column letter. *)
Theorem ToOriginCoordinate_case_insensitive (col row boardSize : Z) :
  rune_A <= col <= rune_Z ->
  ToOriginCoordinate (mkA1 (col + (rune_a - rune_A)) row) boardSize
  = ToOriginCoordinate (mkA1 col row) boardSize.
Proof.
  unfold rune_A, rune_Z, rune_a. intros Hcol.
  unfold ToOriginCoordinate, rune_a, rune_z, rune_A; cbn [Col Row].
  replace ((col + (97 - 65) >=? 97) && (col + (97 - 65) <=? 122)) with true
    by (symmetry; apply andb_true_iff; lia).
  replace ((col >=? 97) && (col <=? 122)) with false
    by (symmetry; apply andb_false_iff; lia).
  rewrite wrap32_small by lia.
  replace (col + (97 - 65) - (97 - 65)) with col by lia. reflexivity.
Qed.

Lemma ToOriginCoordinate_case_insensitive_witness :
  ToOriginCoordinate (mkA1 (rune_J + (rune_a - rune_A)) 9) 9
  = ToOriginCoordinate (mkA1 rune_J 9) 9.
Proof.
  apply ToOriginCoordinate_case_insensitive. unfold rune_A, rune_J, rune_Z. lia.
Defined.

Lemma ToA1Coordinate_on_board (x y boardSize : Z) :
  0 <= x < boardSize -> 0 <= y < boardSize ->
  x <= 18 -> boardSize < 2 ^ 63 ->
  ToA1Coordinate (mkOrigin x y) boardSize =
    Some (mkA1 (if x >=? 8 then rune_A + x + 1 else rune_A + x) (boardSize - y)).
Proof.
  intros Hx Hy Hc Hb. unfold ToA1Coordinate; cbn [X Y].
  assert (Hg : (x <? 0) || (x >=? boardSize) || (y <? 0) || (y >=? boardSize)
               = false).
  { rewrite !orb_false_iff. repeat split; lia. }
  rewrite Hg. unfold rune_A.
  rewrite (wrap32_small x) by lia.
  rewrite (wrap32_small (65 + x)) by lia.
  rewrite (wrap64_small (boardSize - y)) by lia.
  destruct (x >=? 8); [rewrite wrap32_small by lia|]; reflexivity.
Qed.

(** X3.  A successful reverse conversion lands on the board, in one of its
    first nineteen columns, and converting the result forward gives the A1
    coordinate again, its letter in upper case: on the coordinates the
    reverse conversion accepts, the forward conversion is its inverse (the
    row and the board size being [int] values). *)
Theorem ToA1Coordinate_ToOriginCoordinate (a1 : A1Coordinate)
    (boardSize : Z) (c : OriginCoordinate) :
  in_int64 (Row a1) = true -> in_int64 boardSize = true ->
  ToOriginCoordinate a1 boardSize = Some c ->
  (0 <= X c < boardSize /\ 0 <= Y c < boardSize /\ X c <= 18)
  /\ ToA1Coordinate c boardSize =
       Some (mkA1 (if (Col a1 >=? rune_a) && (Col a1 <=? rune_z)
                   then Col a1 - (rune_a - rune_A) else Col a1)
               (Row a1)).
Proof.
  unfold in_int64, min_int64, max_int64. intros Hrow Hsize Hconv.
  apply andb_true_iff in Hrow. apply andb_true_iff in Hsize.
  pose proof (ToOriginCoordinate_on_board a1 boardSize c Hconv)
    as (HX & HY & H18).
  split; [auto|]. clear H18.
  revert Hconv.
  unfold ToOriginCoordinate, rune_a, rune_z, rune_A, rune_H, rune_J, rune_T.
  destruct ((Col a1 >=? 97) && (Col a1 <=? 122)) eqn:Elow.
  - apply andb_true_iff in Elow.
    rewrite (wrap32_small (Col a1 - (97 - 65))) by lia.
    set (col := Col a1 - (97 - 65)).
    assert (Hcol : 65 <= col <= 90) by (subst col; lia).
    clearbody col.
    destruct ((col >=? 65) && (col <=? 72)) eqn:E1;
      [|destruct ((col >=? 74) && (col <=? 84)) eqn:E2; [|discriminate]];
      match goal with
      | |- context [if ?g then None else Some _] => destruct g; [discriminate|]
      end;
      intros [= <-]; cbn [X Y] in *.
    + apply andb_true_iff in E1. rewrite wrap32_small in * by lia.
      assert (Hy : wrap64 (boardSize - Row a1) = boardSize - Row a1).
      { revert HY. unfold wrap64, wrap. intros HY.
        Z.div_mod_to_equations. lia. }
      rewrite Hy in *.
      rewrite ToA1Coordinate_on_board by lia.
      replace (col - 65 >=? 8) with false by (symmetry; lia).
      unfold rune_A. f_equal. f_equal; lia.
    + apply andb_true_iff in E2. rewrite wrap32_small in * by lia.
      assert (Hy : wrap64 (boardSize - Row a1) = boardSize - Row a1).
      { revert HY. unfold wrap64, wrap. intros HY.
        Z.div_mod_to_equations. lia. }
      rewrite Hy in *.
      rewrite ToA1Coordinate_on_board by lia.
      replace (col - 65 - 1 >=? 8) with true by (symmetry; lia).
      unfold rune_A. f_equal. f_equal; lia.
  - set (col := Col a1).
    destruct ((col >=? 65) && (col <=? 72)) eqn:E1;
      [|destruct ((col >=? 74) && (col <=? 84)) eqn:E2; [|discriminate]];
      match goal with
      | |- context [if ?g then None else Some _] => destruct g; [discriminate|]
      end;
      intros [= <-]; cbn [X Y] in *.
    + apply andb_true_iff in E1. rewrite wrap32_small in * by lia.
      assert (Hy : wrap64 (boardSize - Row a1) = boardSize - Row a1).
      { revert HY. unfold wrap64, wrap. intros HY.
        Z.div_mod_to_equations. lia. }
      rewrite Hy in *.
      rewrite ToA1Coordinate_on_board by lia.
      replace (col - 65 >=? 8) with false by (symmetry; lia).
      unfold rune_A. f_equal. f_equal; lia.
    + apply andb_true_iff in E2. rewrite wrap32_small in * by lia.
      assert (Hy : wrap64 (boardSize - Row a1) = boardSize - Row a1).
      { revert HY. unfold wrap64, wrap. intros HY.
        Z.div_mod_to_equations. lia. }
      rewrite Hy in *.
      rewrite ToA1Coordinate_on_board by lia.
      replace (col - 65 - 1 >=? 8) with true by (symmetry; lia).
      unfold rune_A. f_equal. f_equal; lia.
Qed.

Lemma ToA1Coordinate_ToOriginCoordinate_witness :
  ToOriginCoordinate (mkA1 (rune_J + (rune_a - rune_A)) 9) 9
    = Some (mkOrigin 8 0)
  /\ (0 <= 8 < 9 /\ 0 <= 0 < 9 /\ 8 <= 18)
  /\ ToA1Coordinate (mkOrigin 8 0) 9 = Some (mkA1 rune_J 9).
Proof.
  split; [reflexivity|].
  apply (ToA1Coordinate_ToOriginCoordinate
           (mkA1 (rune_J + (rune_a - rune_A)) 9) 9 (mkOrigin 8 0));
    reflexivity.
Defined.

(** ** Decimal integers *)

(** The decimal digits of a number start with a digit. *)
Lemma string_of_uint_head (d : Decimal.uint) :
  d <> Decimal.Nil ->
  exists a rest,
    NilZero.string_of_uint d = String a rest
    /\ Ascii.eqb a "+" = false /\ Ascii.eqb a "-" = false.
Proof.
  intros Hd. destruct d; [contradiction| ..];
    eexists; eexists; (split; [reflexivity | split; reflexivity]).
Qed.

(** Printing an [int64] with [%d] and parsing it back gives the number. *)
Lemma ParseInt_Sprintf_d (z : Z) :
  in_int64 z = true -> ParseInt (Sprintf_d z) = Some z.
Proof.
  intros Hz. unfold Sprintf_d. destruct z as [|p|p].
  - reflexivity.
  - cbn [Z.to_int NilZero.string_of_int].
    pose proof (Unsigned.to_uint_nonnil p) as Hnil.
    destruct (string_of_uint_head (Pos.to_uint p) Hnil)
      as (a & rest & Hs & Hplus & Hminus).
    unfold ParseInt. rewrite Hs, Hplus, Hminus, <- Hs.
    rewrite NilZero.usu by exact Hnil.
    unfold Z.of_uint. rewrite Unsigned.of_to. cbn [Z.of_N].
    rewrite Hz. reflexivity.
  - cbn [Z.to_int NilZero.string_of_int].
    pose proof (Unsigned.to_uint_nonnil p) as Hnil.
    unfold ParseInt.
    change (Ascii.eqb "-" "+") with false.
    change (Ascii.eqb "-" "-") with true. cbv iota.
    rewrite NilZero.usu by exact Hnil.
    unfold Z.of_uint. rewrite Unsigned.of_to. cbn [Z.of_N].
    change (- Z.pos p) with (Z.neg p). rewrite Hz. reflexivity.
Qed.

(** The decimal digits of a number hold no character [c] that is not a
    digit. *)
Lemma string_of_uint_digits (d : Decimal.uint) (c : ascii) :
  (forall k, In k (zrange 48 10) -> byteValue c <> k) ->
  ~ In c (list_ascii_of_string (NilEmpty.string_of_uint d)).
Proof.
  intros Hc.
  induction d; cbn [NilEmpty.string_of_uint list_ascii_of_string In];
    intros H; [exact H | ..];
    (destruct H as [<-|H]; [|exact (IHd H)]);
    (eapply Hc; [|reflexivity]); vm_compute; tauto.
Qed.

(** ** [NewA1Coordinate] *)

Lemma zrange_forallb (P : Z -> bool) (lo : Z) (n : nat) (z : Z) :
  forallb P (zrange lo n) = true ->
  lo <= z < lo + Z.of_nat n -> P z = true.
Proof.
  intros Hall Hz. rewrite forallb_forall in Hall. apply Hall.
  unfold zrange. apply in_map_iff. exists (Z.to_nat (z - lo)).
  split; [lia|]. apply in_seq. lia.
Qed.

(** The table of the 25 letters and 25 rows: what [A1Coordinate.String]
    prints, with the letter as it is or in lower case, parses back. *)
Lemma NewA1Coordinate_table (mapUnicodeToUpper : string -> string) :
  forallb (fun col =>
    (col =? rune_I)
    || forallb (fun row =>
         match NewA1Coordinate mapUnicodeToUpper
                 (A1Coordinate_String (mkA1 col row)),
               NewA1Coordinate mapUnicodeToUpper
                 (A1Coordinate_String (mkA1 (col + (rune_a - rune_A)) row))
         with
         | Some a, Some b =>
             (Col a =? col) && (Row a =? row)
             && (Col b =? col) && (Row b =? row)
         | _, _ => false
         end) (zrange 1 25)) (zrange rune_A 26) = true.
Proof. vm_compute. reflexivity. Qed.

Lemma NewA1Coordinate_printed (mapUnicodeToUpper : string -> string)
    (col row : Z) :
  rune_A <= col <= rune_Z -> col <> rune_I -> 1 <= row <= 25 ->
  NewA1Coordinate mapUnicodeToUpper (A1Coordinate_String (mkA1 col row))
  = Some (mkA1 col row).
Proof.
  intros Hcol HI Hrow. unfold rune_A, rune_Z in Hcol.
  pose proof (zrange_forallb _ _ _ col
                (NewA1Coordinate_table mapUnicodeToUpper)) as Hc.
  cbv beta in Hc. unfold rune_A at 1 2 in Hc.
  specialize (Hc ltac:(lia)).
  apply orb_true_iff in Hc. destruct Hc as [Hc|Hc];
    [apply Z.eqb_eq in Hc; contradiction|].
  pose proof (zrange_forallb _ _ _ row Hc ltac:(lia)) as Hr.
  cbv beta in Hr.
  destruct (NewA1Coordinate mapUnicodeToUpper
              (A1Coordinate_String (mkA1 col row))) as [[c r]|];
    [|discriminate Hr].
  destruct (NewA1Coordinate mapUnicodeToUpper _); [|discriminate Hr].
  cbn [Col Row] in Hr. rewrite !andb_true_iff in Hr.
  destruct Hr as [[[H1 H2] _] _]. apply Z.eqb_eq in H1, H2.
  subst. reflexivity.
Qed.

(** X5.  Every coordinate [NewA1Coordinate] returns has a column letter from A
    to Z other than I and a row between 1 and 25, and comes from a string
    of at least two bytes. *)
Theorem NewA1Coordinate_valid (mapUnicodeToUpper : string -> string)
    (coord : string) (a1 : A1Coordinate) :
  NewA1Coordinate mapUnicodeToUpper coord = Some a1 ->
  rune_A <= Col a1 <= rune_Z /\ Col a1 <> rune_I /\ 1 <= Row a1 <= 25
  /\ 2 <= Z.of_nat (String.length coord).
Proof.
  unfold NewA1Coordinate.
  destruct (Z.ltb_spec (Z.of_nat (String.length coord)) 2) as [|Hlen];
    [discriminate|].
  destruct (ToUpper mapUnicodeToUpper coord) as [|c upper]; [discriminate|].
  destruct coord as [|c0 row]; [discriminate|].
  destruct ((byteValue c <? rune_A) || (byteValue c >? rune_Z)
            || (byteValue c =? rune_I)) eqn:Ecol; [discriminate|].
  destruct (Atoi row) as [rowNum|]; [|discriminate].
  destruct ((rowNum <=? 0) || (rowNum >? 25)) eqn:Erow; [discriminate|].
  intros [= <-]. cbn [Col Row].
  rewrite !orb_false_iff in Ecol, Erow. lia.
Qed.

Lemma NewA1Coordinate_valid_witness :
  NewA1Coordinate (fun s => s) "j10" = Some (mkA1 rune_J 10)
  /\ (rune_A <= rune_J <= rune_Z /\ rune_J <> rune_I /\ 1 <= 10 <= 25
      /\ 2 <= Z.of_nat (String.length "j10")).
Proof.
  split; [reflexivity|].
  apply (NewA1Coordinate_valid (fun s => s) "j10" (mkA1 rune_J 10)).
  reflexivity.
Defined.

(** X6.  Parsing what [A1Coordinate.String] prints gives the coordinate back,
    for every column letter from A to Z other than I and every row from 1
    to 25; the same text with the letter in lower case parses to the same
    coordinate. *)
Theorem NewA1Coordinate_String (mapUnicodeToUpper : string -> string)
    (a1 : A1Coordinate) :
  rune_A <= Col a1 <= rune_Z -> Col a1 <> rune_I -> 1 <= Row a1 <= 25 ->
  NewA1Coordinate mapUnicodeToUpper (A1Coordinate_String a1) = Some a1
  /\ NewA1Coordinate mapUnicodeToUpper
       (A1Coordinate_String (mkA1 (Col a1 + (rune_a - rune_A)) (Row a1)))
     = Some a1.
Proof.
  destruct a1 as [col row]; cbn [Col Row]. intros Hcol HI Hrow.
  set (same := fun (r : option A1Coordinate) =>
                 match r with
                 | Some a => (Col a =? col) && (Row a =? row)
                 | None => false
                 end).
  assert (Hsame : forall r, same r = true -> r = Some (mkA1 col row)).
  { intros [[c r]|]; [|discriminate]. unfold same; cbn [Col Row].
    intros H. apply andb_true_iff in H. destruct H as [Hc Hr].
    apply Z.eqb_eq in Hc, Hr. subst. reflexivity. }
  pose proof (NewA1Coordinate_table mapUnicodeToUpper) as Hall.
  pose proof (zrange_forallb _ _ _ col Hall) as Hc.
  cbv beta in Hc. unfold rune_A, rune_Z in *.
  specialize (Hc ltac:(lia)).
  apply orb_true_iff in Hc. destruct Hc as [Hc|Hc];
    [apply Z.eqb_eq in Hc; contradiction|].
  pose proof (zrange_forallb _ _ _ row Hc ltac:(lia)) as Hr.
  cbv beta in Hr.
  destruct (NewA1Coordinate mapUnicodeToUpper
              (A1Coordinate_String (mkA1 col row))) as [a|];
    [|discriminate Hr].
  destruct (NewA1Coordinate mapUnicodeToUpper
              (A1Coordinate_String (mkA1 (col + (rune_a - 65)) row))) as [b|];
    [|discriminate Hr].
  rewrite !andb_true_iff in Hr. destruct Hr as [[[H1 H2] H3] H4].
  split; apply Hsame; unfold same; rewrite ?H1, ?H2, ?H3, ?H4; reflexivity.
Qed.

Lemma NewA1Coordinate_String_witness :
  NewA1Coordinate (fun s => s) (A1Coordinate_String (mkA1 rune_J 10))
    = Some (mkA1 rune_J 10)
  /\ NewA1Coordinate (fun s => s)
       (A1Coordinate_String (mkA1 (rune_J + (rune_a - rune_A)) 10))
     = Some (mkA1 rune_J 10).
Proof.
  apply (NewA1Coordinate_String (fun s => s) (mkA1 rune_J 10));
    unfold rune_A, rune_J, rune_Z, rune_I; cbn [Col Row]; lia.
Defined.

(** X7.  The coordinate the status line prints for a move can be typed back as
    a move: on a board of at most 25 lines, for every coordinate of the
    board in one of the first nineteen columns, the text of its A1
    coordinate parses to that A1 coordinate, which converts to the
    coordinate. *)
Theorem parseMove_of_printed (mapUnicodeToUpper : string -> string)
    (x y boardSize : Z) :
  0 < boardSize <= 25 ->
  0 <= x < boardSize -> 0 <= y < boardSize -> x <= 18 ->
  exists a1,
    ToA1Coordinate (mkOrigin x y) boardSize = Some a1
    /\ ToOriginCoordinate a1 boardSize = Some (mkOrigin x y)
    /\ NewA1Coordinate mapUnicodeToUpper (A1Coordinate_String a1) = Some a1
    /\ parseMove mapUnicodeToUpper (A1Coordinate_String a1) boardSize
       = Some (mkOrigin x y).
Proof.
  intros Hb Hx Hy Hc.
  destruct (roundTrip_first_19_columns x y boardSize Hb Hx Hy Hc)
    as (a1 & Hto & Hback).
  exists a1. split; [exact Hto|]. split; [exact Hback|].
  assert (Hparse : NewA1Coordinate mapUnicodeToUpper (A1Coordinate_String a1)
                   = Some a1).
  { rewrite ToA1Coordinate_in_bounds in Hto by lia.
    injection Hto as <-.
    apply NewA1Coordinate_printed; unfold rune_A, rune_Z, rune_I;
      destruct (Z.geb_spec x 8); lia. }
  split; [exact Hparse|].
  unfold parseMove. rewrite Hparse. exact Hback.
Qed.

Lemma parseMove_of_printed_witness :
  exists a1,
    ToA1Coordinate (mkOrigin 8 0) 9 = Some a1
    /\ ToOriginCoordinate a1 9 = Some (mkOrigin 8 0)
    /\ NewA1Coordinate (fun s => s) (A1Coordinate_String a1) = Some a1
    /\ parseMove (fun s => s) (A1Coordinate_String a1) 9
       = Some (mkOrigin 8 0).
Proof. apply (parseMove_of_printed (fun s => s) 8 0 9); lia. Defined.

(** ** Game identifiers and timestamps *)

Lemma append_list (a b : string) :
  list_ascii_of_string (a +:+ b)
  = (list_ascii_of_string a ++ list_ascii_of_string b)%list.
Proof.
  induction a as [|ch a IH]; [reflexivity|].
  rewrite append_cons. cbn [list_ascii_of_string app]. rewrite IH. reflexivity.
Qed.

(** The text [%d] prints holds no slash. *)
Lemma Sprintf_d_no_slash (z : Z) :
  ~ In "/"%char (list_ascii_of_string (Sprintf_d z)).
Proof.
  assert (Hdigit : forall k, In k (zrange 48 10) -> byteValue "/" <> k).
  { intros k Hk. vm_compute in Hk.
    repeat (destruct Hk as [<-|Hk]; [discriminate|]). contradiction. }
  assert (Huint : forall d,
             ~ In "/"%char (list_ascii_of_string (NilZero.string_of_uint d))).
  { intros d. destruct d; try apply (string_of_uint_digits _ _ Hdigit).
    cbn. intros [H|[]]. discriminate H. }
  unfold Sprintf_d. destruct (Z.to_int z) as [d|d];
    cbn [NilZero.string_of_int list_ascii_of_string In].
  - apply Huint.
  - intros [H|H]; [discriminate H | exact (Huint d H)].
Qed.

(** The last of the parts between slashes is what follows the last
    slash. *)
Lemma Split_slash_last (a b : string) :
  ~ In "/"%char (list_ascii_of_string b) ->
  List.last (Split_slash (a +:+ "/" +:+ b)) EmptyString = b.
Proof.
  intros Hb.
  assert (Hnil : forall s, Split_slash s <> []).
  { induction s as [|ch s IH]; cbn [Split_slash]; [discriminate|].
    destruct (Ascii.eqb ch "/"); [discriminate|].
    destruct (Split_slash s); discriminate. }
  assert (Hplain : Split_slash b = [b]).
  { induction b as [|ch b IH]; [reflexivity|].
    cbn [list_ascii_of_string In] in Hb. cbn [Split_slash].
    destruct (Ascii.eqb_spec ch "/") as [->|_]; [tauto|].
    rewrite IH by tauto. reflexivity. }
  induction a as [|ch a IH].
  - rewrite append_nil, append_cons, append_nil. cbn [Split_slash].
    change (Ascii.eqb "/" "/") with true. cbv iota.
    rewrite Hplain. reflexivity.
  - rewrite append_cons. cbn [Split_slash].
    destruct (Ascii.eqb ch "/").
    + destruct (Split_slash (a +:+ "/" +:+ b)) eqn:E;
        [exact (False_ind _ (Hnil _ E)) | exact IH].
    + destruct (Split_slash (a +:+ "/" +:+ b)) as [|part parts] eqn:E;
        [exact (False_ind _ (Hnil _ E))|].
      destruct parts as [|p2 parts].
      * cbn [List.last] in IH. subst part.
        exfalso.
        assert (Hlen : (2 <= List.length (Split_slash (a +:+ "/" +:+ b)))%nat).
        { clear. induction a as [|c a IHa].
          - rewrite append_nil, append_cons, append_nil. cbn [Split_slash].
            change (Ascii.eqb "/" "/") with true. cbv iota.
            destruct (Split_slash b) eqn:Eb; cbn; [|lia].
            destruct b; cbn in Eb; [discriminate|].
            destruct (Ascii.eqb a "/"); [discriminate|].
            destruct (Split_slash b); discriminate.
          - rewrite append_cons. cbn [Split_slash].
            destruct (Ascii.eqb c "/"); [cbn; lia|].
            destruct (Split_slash (a +:+ "/" +:+ b)); cbn in *; lia. }
        rewrite E in Hlen. cbn in Hlen. lia.
      * exact IH.
Qed.

(** X8.  The address [Game.URL] gives leads back to the game: [parseGameID]
    extracts the game's identifier from it, as it does from the identifier
    printed alone. *)
Theorem parseGameID_URL (g : Game.t) :
  in_int64 (Game.GameID g) = true ->
  parseGameID (Game.URL g) = Some (Game.GameID g)
  /\ parseGameID (Sprintf_d (Game.GameID g)) = Some (Game.GameID g).
Proof.
  intros Hid. unfold parseGameID, Game.URL. cbv zeta. split.
  - change ("/" +:+ ogsBaseURL +:+ "/game/" +:+ Sprintf_d (Game.GameID g))
      with (("/" +:+ ogsBaseURL +:+ "/game") +:+ "/"
            +:+ Sprintf_d (Game.GameID g)).
    rewrite Split_slash_last by apply Sprintf_d_no_slash.
    apply ParseInt_Sprintf_d, Hid.
  - change ("/" +:+ Sprintf_d (Game.GameID g))
      with (EmptyString +:+ "/" +:+ Sprintf_d (Game.GameID g)).
    rewrite Split_slash_last by apply Sprintf_d_no_slash.
    apply ParseInt_Sprintf_d, Hid.
Qed.

Lemma parseGameID_URL_witness :
  parseGameID (Game.URL Fixtures.game) = Some 7
  /\ parseGameID (Sprintf_d 7) = Some 7.
Proof. apply (parseGameID_URL Fixtures.game). reflexivity. Defined.

(** X9.  A timestamp in seconds and the same instant in milliseconds decode to
    the same time, for every instant after the first 10^9 seconds of the
    epoch and up to 10^12 seconds. *)
Theorem Timestamp_seconds_or_milliseconds (sec : Z) :
  1000000000 < sec <= 1000000000000 ->
  Timestamp_UnmarshalJSON (Sprintf_d sec) = Some (Unix sec)
  /\ Timestamp_UnmarshalJSON (Sprintf_d (1000 * sec)) = Some (Unix sec).
Proof.
  intros Hsec. unfold Timestamp_UnmarshalJSON.
  rewrite !ParseInt_Sprintf_d
    by (unfold in_int64, min_int64, max_int64; apply andb_true_iff; lia).
  replace (sec >? 1000000000000) with false by (symmetry; lia).
  replace (1000 * sec >? 1000000000000) with true by (symmetry; lia).
  split; [reflexivity|]. unfold UnixMilli, Unix, Second. f_equal. lia.
Qed.

Lemma Timestamp_seconds_or_milliseconds_witness :
  Timestamp_UnmarshalJSON "1672531200" = Some (Unix 1672531200)
  /\ Timestamp_UnmarshalJSON "1672531200000" = Some (Unix 1672531200).
Proof.
  apply (Timestamp_seconds_or_milliseconds 1672531200). lia.
Defined.

(** ** Clock engine: further properties *)

Lemma ltb_eps_false_ltb_zero (m : float) :
  (m <? eps)%float = false -> (m <? 0)%float = false.
Proof.
  rewrite !ltb_spec, Prim2SF_eps, Prim2SF_zero.
  destruct (Prim2SF m) as [s|s| |s mm e]; intros H.
  - destruct s; reflexivity.
  - destruct s; [discriminate H | reflexivity].
  - reflexivity.
  - destruct s; [discriminate H | reflexivity].
Qed.

(** [math.Max(0, x)] is never negative. *)
Lemma Max_zero_not_negative (x : float) : (Max 0 x <? 0)%float = false.
Proof.
  unfold Max.
  destruct (x =? infinity)%float; [reflexivity|].
  destruct (is_nan x); [reflexivity|].
  destruct (0 =? x)%float; [reflexivity|].
  destruct (x <? 0)%float eqn:E; [reflexivity | exact E].
Qed.

Lemma mainAndOverTime_not_negative (thinkingTime elapsed : float) :
  (fst (Clock.mainAndOverTime thinkingTime elapsed) <? 0)%float = false.
Proof.
  unfold Clock.mainAndOverTime.
  destruct (eps <? thinkingTime)%float; [|reflexivity].
  destruct (thinkingTime - elapsed <? eps)%float eqn:E; [reflexivity|].
  apply ltb_eps_false_ltb_zero, E.
Qed.

(** X10.  The clock of the player on turn never shows a negative main time,
    under any discipline and whatever the snapshot holds. *)
Theorem on_turn_MainTime_not_negative (now : Time) (c : Clock.t)
    (tc : TimeControl.t) (player : PlayerColor) (cc : ComputedClock.t) :
  Clock.holdsTurn c player = true ->
  Clock.ComputeClock now c tc player = Some cc ->
  (ComputedClock.MainTime cc <? 0)%float = false.
Proof.
  unfold Clock.holdsTurn, Clock.ComputeClock.
  destruct (Clock.playerTimeAndTurn c player) as [[t isTurn]|];
    [|discriminate].
  intros ->. cbv zeta. unfold cond.
  destruct (String.eqb (TimeControl.System tc) ClockAbsolute
            || String.eqb (TimeControl.System tc) ClockFischer).
  { intros [= <-]. apply Max_zero_not_negative. }
  destruct (String.eqb (TimeControl.System tc) ClockByoyomi).
  { pose proof (mainAndOverTime_not_negative (PlayerTime.ThinkingTime t)
                  (Clock.elapsedAt now c true)) as Hmain.
    destruct (Clock.mainAndOverTime _ _) as [mainTime overTime].
    destruct (eps <? overTime)%float; intros [= <-]; exact Hmain. }
  destruct (String.eqb (TimeControl.System tc) ClockCanadian).
  { pose proof (mainAndOverTime_not_negative (PlayerTime.ThinkingTime t)
                  (Clock.elapsedAt now c true)) as Hmain.
    destruct (Clock.mainAndOverTime _ _) as [mainTime overTime].
    destruct (eps <? overTime)%float; intros [= <-]; exact Hmain. }
  destruct (String.eqb (TimeControl.System tc) ClockSimple); [|discriminate].
  intros [= <-]. apply Max_zero_not_negative.
Qed.

Lemma on_turn_MainTime_not_negative_witness :
  Clock.ComputeClock (Fixtures.lastMove + 35 * Second)
    (Fixtures.clock Fixtures.fortySeconds 1 false)
    (Fixtures.timeControl ClockAbsolute 0) PlayerBlack
  = Some (ComputedClock.mk ClockAbsolute 5 0 0 0 0 true false)
  /\ (5 <? 0)%float = false.
Proof.
  split; [reflexivity|].
  apply (on_turn_MainTime_not_negative (Fixtures.lastMove + 35 * Second)
           (Fixtures.clock Fixtures.fortySeconds 1 false)
           (Fixtures.timeControl ClockAbsolute 0) PlayerBlack
           (ComputedClock.mk ClockAbsolute 5 0 0 0 0 true false));
    reflexivity.
Defined.

(** X11.  Under the simple discipline the clock is computed from the per-move
    allowance, the turn and the elapsed time.  For a recognized player the
    main time is the per-move allowance off turn and [max(0, perMove -
    elapsed)] on turn, the elapsed time being zero in start mode and the
    time since the last move otherwise; [SuddenDeath = (mainTime < 10)],
    [TimedOut = (mainTime < 1e-7)], and every other field is zero.  The
    players' snapshot times do not reach the result: replacing [BlackTime]
    and [WhiteTime] of the clock by any other values leaves it
    unchanged. *)
Theorem simple_ignores_snapshot_times (now : Time) (tc : TimeControl.t)
    (player : PlayerColor) (c : Clock.t) :
  TimeControl.System tc = ClockSimple ->
  (forall (t : PlayerTime.t) (isTurn : bool),
      Clock.playerTimeAndTurn c player = Some (t, isTurn) ->
      let elapsed :=
        if Clock.StartMode c then 0%float
        else Seconds (Since now (Clock.LastMove c)) in
      let mainTime :=
        if isTurn then Max 0 (TimeControl.PerMove tc - elapsed)%float
        else TimeControl.PerMove tc in
      Clock.ComputeClock now c tc player
      = Some (ComputedClock.mk ClockSimple mainTime 0 0 0 0
                (mainTime <? 10)%float (mainTime <? eps)%float))
  /\ (forall black white : PlayerTime.t,
        Clock.ComputeClock now
          (Clock.mk (Clock.BlackPlayerID c) black (Clock.CurrentPlayerID c)
             (Clock.Expiration c) (Clock.GameID c) (Clock.LastMove c)
             (Clock.PausedSince c) (Clock.Title c) (Clock.WhitePlayerID c)
             white (Clock.StartMode c) (Clock.Now c)) tc player
        = Clock.ComputeClock now c tc player).
Proof.
  intros Hsys. split.
  - intros t isTurn Hplayer elapsed mainTime.
    unfold Clock.ComputeClock. rewrite Hplayer. cbv zeta. rewrite Hsys.
    change (String.eqb ClockSimple ClockAbsolute
            || String.eqb ClockSimple ClockFischer) with false.
    change (String.eqb ClockSimple ClockByoyomi) with false.
    change (String.eqb ClockSimple ClockCanadian) with false.
    change (String.eqb ClockSimple ClockSimple) with true.
    cbv iota.
    assert (Hmain : cond isTurn
                      (Max 0 (TimeControl.PerMove tc
                              - Clock.elapsedAt now c isTurn)%float)
                      (TimeControl.PerMove tc) = mainTime).
    { subst mainTime elapsed. unfold cond, Clock.elapsedAt.
      destruct isTurn; [|reflexivity].
      destruct (Clock.StartMode c); reflexivity. }
    rewrite Hmain. reflexivity.
  - intros black white.
    unfold Clock.ComputeClock, Clock.playerTimeAndTurn.
    cbn [Clock.BlackTime Clock.WhiteTime Clock.CurrentPlayerID
         Clock.BlackPlayerID Clock.WhitePlayerID].
    rewrite Hsys.
    destruct (player =? PlayerBlack);
      [|destruct (player =? PlayerWhite); [|reflexivity]];
      cbv zeta;
      change (String.eqb ClockSimple ClockAbsolute
              || String.eqb ClockSimple ClockFischer) with false;
      change (String.eqb ClockSimple ClockByoyomi) with false;
      change (String.eqb ClockSimple ClockCanadian) with false;
      change (String.eqb ClockSimple ClockSimple) with true;
      reflexivity.
Qed.

Lemma simple_ignores_snapshot_times_witness :
  Clock.ComputeClock (Fixtures.lastMove + 10 * Second)
    (Fixtures.clock Fixtures.noTime 1 false)
    (Fixtures.simpleTimeControl 30) PlayerBlack
  = Some (ComputedClock.mk ClockSimple 20 0 0 0 0 false false)
  /\ Clock.ComputeClock (Fixtures.lastMove + 10 * Second)
       (Fixtures.clock Fixtures.noTime 1 false)
       (Fixtures.simpleTimeControl 30) PlayerWhite
     = Some (ComputedClock.mk ClockSimple 30 0 0 0 0 false false)
  /\ Clock.ComputeClock (Fixtures.lastMove + 10 * Second)
       (Fixtures.clock Fixtures.fortySeconds 1 false)
       (Fixtures.simpleTimeControl 30) PlayerBlack
     = Clock.ComputeClock (Fixtures.lastMove + 10 * Second)
         (Fixtures.clock Fixtures.noTime 1 false)
         (Fixtures.simpleTimeControl 30) PlayerBlack.
Proof.
  split; [|split].
  - apply (proj1 (simple_ignores_snapshot_times
                    (Fixtures.lastMove + 10 * Second)
                    (Fixtures.simpleTimeControl 30) PlayerBlack
                    (Fixtures.clock Fixtures.noTime 1 false) eq_refl)
             Fixtures.noTime true).
    reflexivity.
  - apply (proj1 (simple_ignores_snapshot_times
                    (Fixtures.lastMove + 10 * Second)
                    (Fixtures.simpleTimeControl 30) PlayerWhite
                    (Fixtures.clock Fixtures.noTime 1 false) eq_refl)
             Fixtures.noTime false).
    reflexivity.
  - apply (proj2 (simple_ignores_snapshot_times
                    (Fixtures.lastMove + 10 * Second)
                    (Fixtures.simpleTimeControl 30) PlayerBlack
                    (Fixtures.clock Fixtures.noTime 1 false) eq_refl)
             Fixtures.fortySeconds Fixtures.noTime).
Defined.

(** The order of binary64 is asymmetric. *)
Lemma SFltb_asym (x y : spec_float) :
  SFltb x y = true -> SFltb y x = false.
Proof.
  unfold SFltb.
  destruct x as [sx|sx| |sx mx ex], y as [sy|sy| |sy my ey];
    cbn [SFcompare]; try discriminate; try reflexivity;
    try (destruct sx; discriminate || reflexivity);
    try (destruct sy; discriminate || reflexivity);
    try (destruct sx, sy; discriminate || reflexivity).
  pose proof (Z.compare_antisym ex ey) as HZ.
  pose proof (Pos.compare_cont_antisym mx my Eq) as HP. cbn [CompOpp] in HP.
  change (PosDef.Pos.compare_cont Eq my mx) with (Pos.compare_cont Eq my mx).
  change (PosDef.Pos.compare_cont Eq mx my) with (Pos.compare_cont Eq mx my).
  rewrite HZ, <- HP.
  destruct sx, sy; try discriminate; try reflexivity;
    destruct (ex ?= ey); cbn [CompOpp]; try discriminate; try reflexivity;
    destruct (Pos.compare_cont Eq mx my); cbn [CompOpp];
    discriminate || reflexivity.
Qed.

Lemma ltb_asym (x y : float) :
  (x <? y)%float = true -> (y <? x)%float = false.
Proof. rewrite !ltb_spec. apply SFltb_asym. Qed.

(** Once the overtime has exceeded the threshold the main time is used
    up. *)
Lemma mainAndOverTime_overtime (thinkingTime elapsed : float) :
  (eps <? snd (Clock.mainAndOverTime thinkingTime elapsed))%float = true ->
  fst (Clock.mainAndOverTime thinkingTime elapsed) = 0%float.
Proof.
  unfold Clock.mainAndOverTime.
  destruct (eps <? thinkingTime)%float; [|reflexivity].
  destruct (thinkingTime - elapsed <? eps)%float; [reflexivity|].
  cbn [fst snd]. intros H. discriminate H.
Qed.

(** X12.  Canadian overtime: once the overtime of the player on turn exceeds the
    threshold, the main time shown is zero, and the clock is timed out
    exactly when the block time minus the overtime does not exceed the
    threshold, in which case the block time shown is zero. *)
Theorem canadian_overtime_timeout (now : Time) (c : Clock.t)
    (tc : TimeControl.t) (player : PlayerColor) (t : PlayerTime.t) :
  TimeControl.System tc = ClockCanadian ->
  Clock.playerTimeAndTurn c player = Some (t, true) ->
  let overTime :=
    snd (Clock.mainAndOverTime (PlayerTime.ThinkingTime t)
           (Clock.elapsedAt now c true)) in
  (eps <? overTime)%float = true ->
  exists cc,
    Clock.ComputeClock now c tc player = Some cc
    /\ ComputedClock.MainTime cc = 0%float
    /\ ComputedClock.TimedOut cc
       = negb (eps <? PlayerTime.BlockTime t - overTime)%float
    /\ (ComputedClock.TimedOut cc = true ->
        ComputedClock.BlockTimeLeft cc = 0%float)
    /\ (ComputedClock.TimedOut cc = false ->
        ComputedClock.BlockTimeLeft cc
        = (PlayerTime.BlockTime t - overTime)%float).
Proof.
  intros Hsys Hplayer overTime Hover.
  rewrite (ComputeClock_canadian now c tc player t true Hsys Hplayer).
  pose proof (mainAndOverTime_overtime _ _ Hover) as Hmain.
  subst overTime.
  destruct (Clock.mainAndOverTime _ _) as [mainTime overTime].
  cbn [fst snd] in *. subst mainTime. rewrite Hover.
  unfold clampEps, cond.
  destruct (eps <? PlayerTime.BlockTime t - overTime)%float eqn:E;
    eexists; (split; [reflexivity|]);
    cbn [ComputedClock.MainTime ComputedClock.TimedOut
         ComputedClock.BlockTimeLeft];
    rewrite ?(ltb_asym _ _ E);
    repeat split; try reflexivity; intros H; discriminate H.
Qed.

Lemma canadian_overtime_timeout_witness :
  exists cc,
    Clock.ComputeClock (Fixtures.lastMove + 4 * Second)
      (Fixtures.clock (Fixtures.inCanadian 0 10) 1 false)
      (Fixtures.timeControl ClockCanadian 600) PlayerBlack = Some cc
    /\ ComputedClock.MainTime cc = 0%float
    /\ ComputedClock.TimedOut cc = false
    /\ (ComputedClock.TimedOut cc = true ->
        ComputedClock.BlockTimeLeft cc = 0%float)
    /\ (ComputedClock.TimedOut cc = false ->
        ComputedClock.BlockTimeLeft cc = 6%float).
Proof.
  apply (canadian_overtime_timeout (Fixtures.lastMove + 4 * Second)
           (Fixtures.clock (Fixtures.inCanadian 0 10) 1 false)
           (Fixtures.timeControl ClockCanadian 600) PlayerBlack
           (Fixtures.inCanadian 0 10)); reflexivity.
Defined.

(** ** The renderer *)

Lemma append_empty (s : string) : s +:+ EmptyString = s.
Proof.
  induction s as [|ch s IH]; [reflexivity|].
  rewrite append_cons, IH. reflexivity.
Qed.

Lemma lastByte_not_Timeout (s : string) (ch : ascii) :
  lastByte s = Some ch -> ch <> "t"%char -> s <> "Timeout".
Proof. intros Hlast Hch ->. cbn in Hlast. congruence. Qed.

Lemma Contains_not_Timeout (s sub : string) :
  Contains s sub = true -> Contains "Timeout" sub = false -> s <> "Timeout".
Proof. intros Hs Ht ->. congruence. Qed.

(** A pretty-printed duration ends with a unit letter or holds a colon: it
    is never the word "Timeout". *)
Lemma prettyTime_not_Timeout (seconds : float) :
  prettyTime seconds <> "Timeout".
Proof.
  unfold prettyTime. cbv zeta.
  repeat match goal with
         | |- context [if ?b then _ else _] => destruct b
         end;
    unfold cond;
    repeat match goal with
           | |- context [if ?b then _ else _] => destruct b
           end;
    rewrite ?append_empty;
    first
      [ eapply lastByte_not_Timeout;
        [repeat (rewrite lastByte_append by nonempty); reflexivity
        |discriminate]
      | eapply (Contains_not_Timeout _ ":");
        [apply Contains_append, Contains_prefix | reflexivity] ].
Qed.

(** X14.  The renderer prints "Timeout" exactly for the clocks that are timed
    out, under every discipline, known or not. *)
Theorem String_Timeout_iff (c : ComputedClock.t) :
  ComputedClock.String c = "Timeout" <-> ComputedClock.TimedOut c = true.
Proof.
  split.
  - destruct (ComputedClock.TimedOut c) eqn:Hto; [reflexivity|].
    intros Hs. exfalso. revert Hs.
    unfold ComputedClock.String. rewrite Hto. unfold cond.
    destruct (String.eqb (ComputedClock.System c) ClockAbsolute
              || String.eqb (ComputedClock.System c) ClockFischer
              || String.eqb (ComputedClock.System c) ClockSimple).
    { destruct (ComputedClock.SuddenDeath c).
      - eapply lastByte_not_Timeout;
          [rewrite lastByte_append by nonempty; reflexivity | discriminate].
      - rewrite append_empty. apply prettyTime_not_Timeout. }
    destruct (String.eqb (ComputedClock.System c) ClockByoyomi).
    { destruct (ComputedClock.SuddenDeath c);
        [|destruct (0 <? ComputedClock.MainTime c)%float];
        (eapply lastByte_not_Timeout;
         [repeat (rewrite lastByte_append by nonempty); reflexivity
         |discriminate]). }
    destruct (String.eqb (ComputedClock.System c) ClockCanadian);
      [|discriminate].
    destruct (ComputedClock.SuddenDeath c).
    + eapply lastByte_not_Timeout;
        [repeat (rewrite lastByte_append by nonempty); reflexivity
        |discriminate].
    + destruct (0 <? ComputedClock.MainTime c)%float;
        eapply (Contains_not_Timeout _ "/");
        try reflexivity;
        repeat first [apply Contains_prefix | apply Contains_append].
  - intros Hto. unfold ComputedClock.String. rewrite Hto. reflexivity.
Qed.

(** ** Games: further properties *)

Lemma ComputeClock_some (now : Time) (c : Clock.t) (tc : TimeControl.t)
    (player : PlayerColor) :
  player = PlayerBlack \/ player = PlayerWhite ->
  knownSystem (TimeControl.System tc) ->
  exists cc, Clock.ComputeClock now c tc player = Some cc.
Proof.
  intros Hplayer Hsys.
  assert (Hpt : exists t isTurn,
             Clock.playerTimeAndTurn c player = Some (t, isTurn))
    by (destruct Hplayer as [-> | ->]; eexists; eexists; reflexivity).
  destruct Hpt as (t & isTurn & Hpt).
  unfold Clock.ComputeClock. rewrite Hpt. cbv zeta.
  destruct Hsys as [-> | [-> | [-> | [-> | ->]]]].
  - eexists. reflexivity.
  - change (String.eqb ClockByoyomi ClockAbsolute
            || String.eqb ClockByoyomi ClockFischer) with false.
    change (String.eqb ClockByoyomi ClockByoyomi) with true. cbv iota.
    destruct (if isTurn then _ else _) as [[m p] q]. eexists. reflexivity.
  - change (String.eqb ClockCanadian ClockAbsolute
            || String.eqb ClockCanadian ClockFischer) with false.
    change (String.eqb ClockCanadian ClockByoyomi) with false.
    change (String.eqb ClockCanadian ClockCanadian) with true. cbv iota.
    destruct (if isTurn then _ else _) as [[m p] q]. eexists. reflexivity.
  - eexists. reflexivity.
  - eexists. reflexivity.
Qed.

(** X15.  The colour [WhoseTurn] returns always has a clock: for every game and
    state, [ComputeClock] on that colour returns a clock under each of the
    five disciplines, and it is the clock of Black exactly when the player
    to move is the game's black player. *)
Theorem WhoseTurn_has_clock (now : Time) (g : Game.t) (state : GameState.t)
    (c : Clock.t) (tc : TimeControl.t) :
  knownSystem (TimeControl.System tc) ->
  (exists cc,
     Clock.ComputeClock now c tc (Game.WhoseTurn g state) = Some cc)
  /\ (Game.WhoseTurn g state = PlayerBlack
      <-> GameState.PlayerToMove state = Player.ID (Game.BlackPlayer g))
  /\ (Game.WhoseTurn g state = PlayerWhite
      <-> GameState.PlayerToMove state <> Player.ID (Game.BlackPlayer g)).
Proof.
  intros Hsys. unfold Game.WhoseTurn, cond.
  destruct (Z.eqb_spec (GameState.PlayerToMove state)
              (Player.ID (Game.BlackPlayer g))) as [Heq|Hne].
  - split; [apply ComputeClock_some; [left; reflexivity | exact Hsys]|].
    split; split; try tauto; try discriminate.
  - split; [apply ComputeClock_some; [right; reflexivity | exact Hsys]|].
    split; split; try tauto; try discriminate.
Qed.

Lemma WhoseTurn_has_clock_witness :
  (exists cc,
     Clock.ComputeClock Fixtures.lastMove (Game.Clock Fixtures.game)
       (Game.TimeControl Fixtures.game)
       (Game.WhoseTurn Fixtures.game (Fixtures.state 5 (mkOrigin 3 3)))
     = Some cc)
  /\ (Game.WhoseTurn Fixtures.game (Fixtures.state 5 (mkOrigin 3 3))
      = PlayerBlack <-> 1 = 1)
  /\ (Game.WhoseTurn Fixtures.game (Fixtures.state 5 (mkOrigin 3 3))
      = PlayerWhite <-> 1 <> 1).
Proof.
  apply (WhoseTurn_has_clock Fixtures.lastMove Fixtures.game
           (Fixtures.state 5 (mkOrigin 3 3)) (Game.Clock Fixtures.game)
           (Game.TimeControl Fixtures.game)).
  right. left. reflexivity.
Defined.

(** X16.  [Game.Result] is empty exactly when the game is not finished.  A
    finished game yields the winner's title, then [" won by "], then the
    outcome; the title is ["(B) "] and the black player's text when
    [WinnerID] equals [BlackPlayerID], and ["(W) "] and the white player's
    text otherwise. *)
Theorem Result_empty_iff (g : Game.t) :
  (Game.Result g = EmptyString <-> Game.Phase g <> FinishedPhase)
  /\ (Game.Phase g = FinishedPhase ->
      Game.Result g =
        (if Game.WinnerID g =? Game.BlackPlayerID g then
           "(B) " +:+ Player.String (Game.BlackPlayer g)
         else "(W) " +:+ Player.String (Game.WhitePlayer g))
        +:+ " won by " +:+ Game.Outcome g).
Proof.
  unfold Game.Result.
  destruct (String.eqb_spec (Game.Phase g) FinishedPhase) as [Hf|Hf];
    cbn [negb].
  - split.
    + split; [|intros H; contradiction].
      intros H. exfalso. revert H. apply append_nonempty. discriminate.
    + intros _. cbv zeta.
      unfold cond, Game.BlackPlayerTitle, Game.WhitePlayerTitle,
        Game.BlackPlayer, Game.WhitePlayer.
      destruct (Game.WinnerID g =? Game.BlackPlayerID g); reflexivity.
  - split; [|intros H; contradiction].
    split; [intros _; exact Hf | reflexivity].
Qed.

Lemma Result_empty_iff_witness :
  (Game.Result (Fixtures.finishedGame 2 "Resignation") = EmptyString
   <-> FinishedPhase <> FinishedPhase)
  /\ (FinishedPhase = FinishedPhase ->
      Game.Result (Fixtures.finishedGame 2 "Resignation")
      = "(W) bob[2d] won by Resignation").
Proof. apply (Result_empty_iff (Fixtures.finishedGame 2 "Resignation")). Defined.

(** X17.  A user absent from the player pool is no participant, except that the
    user ID 0 always is: the lookup of a missing key gives the zero
    [Player], whose ID is 0. *)
Theorem IsMyGame_missing (g : Game.t) (myUserID : Z) :
  Game.PlayerPool g !! Sprintf_d myUserID = None ->
  Game.IsMyGame g myUserID = (myUserID =? 0)
  /\ Game.PlayerByID g myUserID = Player.zero.
Proof.
  intros Hmiss. unfold Game.IsMyGame, Game.PlayerByID. rewrite Hmiss.
  cbn [default Player.ID Player.zero]. split; [apply Z.eqb_sym | reflexivity].
Qed.

Lemma IsMyGame_missing_witness :
  Game.IsMyGame Fixtures.game 0 = true
  /\ Game.PlayerByID Fixtures.game 0 = Player.zero.
Proof. apply (IsMyGame_missing Fixtures.game 0). reflexivity. Defined.

(** X18.  For either participant, the opponent of the opponent is the
    participant (the two players having distinct IDs); for anyone but the
    black player, [Opponent] is the black player. *)
Theorem Opponent_involutive (g : Game.t) (myUserID : Z) :
  Player.ID (Game.BlackPlayer g) <> Player.ID (Game.WhitePlayer g) ->
  (myUserID = Player.ID (Game.BlackPlayer g)
   \/ myUserID = Player.ID (Game.WhitePlayer g) ->
   Player.ID (Game.Opponent g (Player.ID (Game.Opponent g myUserID)))
   = myUserID)
  /\ (myUserID <> Player.ID (Game.BlackPlayer g) ->
      Game.Opponent g myUserID = Game.BlackPlayer g).
Proof.
  unfold Game.Opponent, Game.BlackPlayer, Game.WhitePlayer, cond.
  intros Hdistinct. split.
  - intros [-> | ->].
    + rewrite Z.eqb_refl.
      destruct (Z.eqb_spec (Player.ID (Players.Black (Game.Players g)))
                  (Player.ID (Players.White (Game.Players g))));
        [contradiction | reflexivity].
    + destruct (Z.eqb_spec (Player.ID (Players.Black (Game.Players g)))
                  (Player.ID (Players.White (Game.Players g))));
        [contradiction|].
      rewrite Z.eqb_refl. reflexivity.
  - intros Hne.
    destruct (Z.eqb_spec (Player.ID (Players.Black (Game.Players g)))
                myUserID); [congruence | reflexivity].
Qed.

Lemma Opponent_involutive_witness :
  (1 = 1 \/ 1 = 2 ->
   Player.ID (Game.Opponent Fixtures.game
                (Player.ID (Game.Opponent Fixtures.game 1))) = 1)
  /\ (1 <> 1 -> Game.Opponent Fixtures.game 1 = Game.BlackPlayer Fixtures.game).
Proof.
  apply (Opponent_involutive Fixtures.game 1). discriminate.
Defined.

(** X19.  When the last move is neither a pass nor on the board, [Status] drops
    the conversion error and prints [<nil>] for the coordinate. *)
Theorem Status_played_off_board (Quote : string -> string) (g : Game.t)
    (state : GameState.t) (myUserID : Z) :
  GameState.MoveNumber state <> 0 ->
  GameState.Phase state <> FinishedPhase ->
  IsPass (GameState.LastMove state) = false ->
  ToA1Coordinate (GameState.LastMove state) (Game.BoardSize g) = None ->
  exists whoPlayed turn,
    Game.Status Quote g (Some state) myUserID
    = Sprintf_d (GameState.MoveNumber state) +:+ " moves. " +:+ whoPlayed
        +:+ " played <nil>, " +:+ turn +:+ " turn".
Proof.
  intros Hmove Hphase Hpass Hconv. cbn [Game.Status].
  destruct (Z.eqb_spec (GameState.MoveNumber state) 0) as [H0|_];
    [contradiction|].
  destruct (String.eqb_spec (GameState.Phase state) FinishedPhase)
    as [Hf|_]; [contradiction|].
  rewrite Hpass, Hconv.
  destruct (Game.IsMyGame g myUserID); eexists; eexists; reflexivity.
Qed.

Lemma Status_played_off_board_witness :
  exists whoPlayed turn,
    Game.Status Fixtures.quoteLetters Fixtures.game
      (Some (Fixtures.state 5 (mkOrigin 19 3))) 1
    = Sprintf_d 5 +:+ " moves. " +:+ whoPlayed
        +:+ " played <nil>, " +:+ turn +:+ " turn".
Proof.
  apply (Status_played_off_board Fixtures.quoteLetters Fixtures.game
           (Fixtures.state 5 (mkOrigin 19 3)) 1).
  - discriminate.
  - discriminate.
  - reflexivity.
  - reflexivity.
Defined.

(** ** Rankings *)

(** A rank that reaches 30, or 1037, reaches 1. *)
Lemma geb_one_of_geb (r : F32.t) :
  F32.geb r (F32.of_int 30) = true \/ F32.geb r (F32.of_int 1037) = true ->
  F32.geb r (F32.of_int 1) = true.
Proof.
  unfold F32.geb.
  change (F32.of_int 30) with (S754_finite false 15728640 (-19)).
  change (F32.of_int 1037) with (S754_finite false 8495104 (-13)).
  change (F32.of_int 1) with (S754_finite false 8388608 (-23)).
  unfold SFleb.
  destruct r as [s|s| |s m e]; cbn [SFcompare].
  - intros [H|H]; discriminate H.
  - destruct s; [intros [H|H]; discriminate H | reflexivity].
  - intros [H|H]; discriminate H.
  - destruct s; [intros [H|H]; discriminate H|].
    destruct (Z.compare_spec (-23) e) as [He|He|He]; [| reflexivity |].
    + subst e. change (-19 ?= -23) with Gt. change (-13 ?= -23) with Gt.
      intros [H|H]; discriminate H.
    + destruct (Z.compare_spec (-19) e) as [H19|H19|H19];
        [lia | lia |].
      destruct (Z.compare_spec (-13) e) as [H13|H13|H13];
        [lia | lia |].
      intros [H|H]; discriminate H.
Qed.

(** X21.  A player who is not a professional is ranked "?" exactly when the
    rank does not reach 1 (a rank below 1, or no number at all).  Every
    rank that reaches 1 gives a text that ends in [p] when the rank
    reaches 1037, in [d] when it reaches 30 but not 1037, and in [k]
    otherwise. *)
Theorem Ranking_unknown_iff (p : Player.t) :
  Player.Professional p = false ->
  (Player.Ranking p = "?"
   <-> F32.geb (Player.Rank p) (F32.of_int 1) = false)
  /\ (F32.geb (Player.Rank p) (F32.of_int 1) = true ->
      lastByte (Player.Ranking p) =
        Some (if F32.geb (Player.Rank p) (F32.of_int 1037) then "p"%char
              else if F32.geb (Player.Rank p) (F32.of_int 30) then "d"%char
              else "k"%char)).
Proof.
  intros Hpro. unfold Player.Ranking. rewrite Hpro.
  assert (Hsuffix : forall s ch, ch <> "?"%char ->
                      s +:+ String ch EmptyString <> "?").
  { intros s ch Hch Heq.
    pose proof (lastByte_append s (String ch EmptyString)
                  ltac:(discriminate)) as Hlast.
    rewrite Heq in Hlast. cbn in Hlast. congruence. }
  assert (Hlast : forall s ch,
             lastByte (s +:+ String ch EmptyString) = Some ch).
  { intros s ch. rewrite lastByte_append; [reflexivity | discriminate]. }
  destruct (F32.geb (Player.Rank p) (F32.of_int 1037)) eqn:E1037.
  { rewrite (geb_one_of_geb _ (or_intror E1037)). split.
    - split; [intros H; exfalso; revert H; apply Hsuffix | ]; discriminate.
    - intros _. apply Hlast. }
  destruct (F32.geb (Player.Rank p) (F32.of_int 30)) eqn:E30.
  { rewrite (geb_one_of_geb _ (or_introl E30)). split.
    - split; [intros H; exfalso; revert H; apply Hsuffix | ]; discriminate.
    - intros _. apply Hlast. }
  destruct (F32.geb (Player.Rank p) (F32.of_int 1)).
  - split.
    + split; [intros H; exfalso; revert H; apply Hsuffix | ]; discriminate.
    + intros _. apply Hlast.
  - split; [split; reflexivity | discriminate].
Qed.

Lemma Ranking_unknown_iff_witness :
  ((Player.Ranking (Fixtures.player 3 "cat" (F32.const 9999 10000)) = "?"
    <-> F32.geb (F32.const 9999 10000) (F32.of_int 1) = false)
   /\ (false = true ->
       lastByte (Player.Ranking
                   (Fixtures.player 3 "cat" (F32.const 9999 10000)))
       = Some "k"%char))
  /\ ((Player.Ranking (Fixtures.player 2 "bob" (F32.of_int 31)) = "?"
       <-> true = false)
      /\ (true = true ->
          lastByte (Player.Ranking (Fixtures.player 2 "bob" (F32.of_int 31)))
          = Some "d"%char)).
Proof.
  split.
  - apply (Ranking_unknown_iff
             (Fixtures.player 3 "cat" (F32.const 9999 10000))).
    reflexivity.
  - apply (Ranking_unknown_iff (Fixtures.player 2 "bob" (F32.of_int 31))).
    reflexivity.
Defined.

(** ** Timeout and sudden death *)

Lemma Prim2SF_ten : Prim2SF 10 = S754_finite false 5629499534213120 (-49).
Proof. vm_compute. reflexivity. Qed.

(** A time under the threshold is under ten seconds. *)
Lemma ltb_eps_ltb_ten (m : float) :
  (m <? eps)%float = true -> (m <? 10)%float = true.
Proof.
  rewrite !ltb_spec, Prim2SF_eps, Prim2SF_ten. unfold SFltb.
  destruct (Prim2SF m) as [s|s| |s mm e]; cbn [SFcompare].
  - reflexivity.
  - destruct s; [reflexivity | discriminate].
  - discriminate.
  - destruct s; [reflexivity|].
    destruct (Z.compare_spec e (-76)) as [He|He|He].
    + subst e. reflexivity.
    + destruct (Z.compare_spec e (-49)) as [H49|H49|H49];
        [lia | reflexivity | lia].
    + discriminate.
Qed.

(** X13.  [ComputeClock] never reports a timeout without sudden death. *)
Theorem TimedOut_SuddenDeath (now : Time) (c : Clock.t) (tc : TimeControl.t)
    (player : PlayerColor) (cc : ComputedClock.t) :
  Clock.ComputeClock now c tc player = Some cc ->
  ComputedClock.TimedOut cc = true ->
  ComputedClock.SuddenDeath cc = true.
Proof.
  unfold Clock.ComputeClock.
  destruct (Clock.playerTimeAndTurn c player) as [[t isTurn]|];
    [|discriminate].
  cbv zeta.
  destruct (String.eqb (TimeControl.System tc) ClockAbsolute
            || String.eqb (TimeControl.System tc) ClockFischer).
  { intros [= <-]. cbn [ComputedClock.TimedOut ComputedClock.SuddenDeath].
    apply ltb_eps_ltb_ten. }
  destruct (String.eqb (TimeControl.System tc) ClockByoyomi).
  { destruct (if isTurn then _ else _) as [[mainTime periodsLeft] q].
    intros [= <-]. cbn [ComputedClock.TimedOut ComputedClock.SuddenDeath].
    intros H. apply andb_true_iff in H. destruct H as [_ H]. lia. }
  destruct (String.eqb (TimeControl.System tc) ClockCanadian).
  { destruct (if isTurn then _ else _) as [[mainTime movesLeft] blockTimeLeft].
    intros [= <-]. cbn [ComputedClock.TimedOut ComputedClock.SuddenDeath].
    intros H. apply andb_true_iff in H. destruct H as [Hmain Hblock].
    rewrite Hmain, (ltb_eps_ltb_ten _ Hblock). reflexivity. }
  destruct (String.eqb (TimeControl.System tc) ClockSimple); [|discriminate].
  intros [= <-]. cbn [ComputedClock.TimedOut ComputedClock.SuddenDeath].
  apply ltb_eps_ltb_ten.
Qed.

Lemma TimedOut_SuddenDeath_witness :
  Clock.ComputeClock (Fixtures.lastMove + 45 * Second)
    (Fixtures.clock Fixtures.fortySeconds 1 false)
    (Fixtures.timeControl ClockAbsolute 0) PlayerBlack
  = Some (ComputedClock.mk ClockAbsolute 0 0 0 0 0 true true)
  /\ ComputedClock.SuddenDeath
       (ComputedClock.mk ClockAbsolute 0 0 0 0 0 true true) = true.
Proof.
  split; [reflexivity|].
  apply (TimedOut_SuddenDeath (Fixtures.lastMove + 45 * Second)
           (Fixtures.clock Fixtures.fortySeconds 1 false)
           (Fixtures.timeControl ClockAbsolute 0) PlayerBlack
           (ComputedClock.mk ClockAbsolute 0 0 0 0 0 true true));
    reflexivity.
Defined.

(** ** The played move in the status line *)

(** X20.  Past the first move and before the end of the game, a last move on the
    board (of at most 25 lines) is no pass, and [Status] prints its A1
    coordinate: the column letter and the row counted from the bottom. *)
Theorem Status_played_on_board (Quote : string -> string) (g : Game.t)
    (state : GameState.t) (myUserID : Z) :
  GameState.MoveNumber state <> 0 ->
  GameState.Phase state <> FinishedPhase ->
  Game.BoardSize g <= 25 ->
  0 <= X (GameState.LastMove state) < Game.BoardSize g ->
  0 <= Y (GameState.LastMove state) < Game.BoardSize g ->
  exists a1 whoPlayed turn,
    ToA1Coordinate (GameState.LastMove state) (Game.BoardSize g) = Some a1
    /\ Game.Status Quote g (Some state) myUserID
       = Sprintf_d (GameState.MoveNumber state) +:+ " moves. " +:+ whoPlayed
           +:+ " played " +:+ A1Coordinate_String a1 +:+ ", " +:+ turn
           +:+ " turn".
Proof.
  intros Hmove Hphase Hsize HX HY.
  destruct (GameState.LastMove state) as [x y] eqn:Elast. cbn [X Y] in *.
  pose proof (ToA1Coordinate_in_bounds x y (Game.BoardSize g) HX HY Hsize)
    as Hconv.
  assert (Hpass : IsPass (mkOrigin x y) = false).
  { unfold IsPass; cbn [X Y]. apply orb_false_iff. split; lia. }
  eexists. cbn [Game.Status].
  destruct (Z.eqb_spec (GameState.MoveNumber state) 0) as [H0|_];
    [contradiction|].
  destruct (String.eqb_spec (GameState.Phase state) FinishedPhase)
    as [Hf|_]; [contradiction|].
  rewrite Elast, Hpass, Hconv.
  destruct (Game.IsMyGame g myUserID); eexists; eexists;
    (split; reflexivity).
Qed.

Lemma Status_played_on_board_witness :
  exists a1 whoPlayed turn,
    ToA1Coordinate (mkOrigin 3 3) 19 = Some a1
    /\ Game.Status Fixtures.quoteLetters Fixtures.game
         (Some (Fixtures.state 5 (mkOrigin 3 3))) 1
       = Sprintf_d 5 +:+ " moves. " +:+ whoPlayed
           +:+ " played " +:+ A1Coordinate_String a1 +:+ ", " +:+ turn
           +:+ " turn".
Proof.
  apply (Status_played_on_board Fixtures.quoteLetters Fixtures.game
           (Fixtures.state 5 (mkOrigin 3 3)) 1);
    first [discriminate | cbn; lia].
Defined.

(** ** Removed stones *)

Lemma length_append (a b : string) :
  String.length (a +:+ b) = (String.length a + String.length b)%nat.
Proof.
  induction a as [|ch a IH]; [reflexivity|].
  rewrite append_cons. cbn [String.length]. rewrite IH. reflexivity.
Qed.

Lemma concat_length (l : list string) :
  String.length (String.concat EmptyString l)
  = list_sum (map String.length l).
Proof.
  unfold list_sum. induction l as [|s l IH]; [reflexivity|].
  cbn [String.concat map fold_right].
  destruct l as [|s' l].
  - cbn. lia.
  - rewrite append_nil, length_append, IH. reflexivity.
Qed.

Lemma Sprintf_c_letter (r : Z) :
  0 <= r < 128 -> String.length (Sprintf_c r) = 1%nat.
Proof.
  intros Hr. unfold Sprintf_c.
  replace ((r <? 0) || (r >? 1114111) || ((55296 <=? r) && (r <=? 57343)))
    with false.
  - replace (r <? 128) with true by (symmetry; lia). reflexivity.
  - symmetry. rewrite !orb_false_iff, andb_false_iff. lia.
Qed.

Lemma removalRow_pairs (y x : Z) (row : list Z) :
  0 <= y < 25 -> 0 <= x -> x + Z.of_nat (List.length row) <= 25 ->
  Forall (fun s => String.length s = 2%nat) (removalRow y x row)
  /\ List.length (removalRow y x row)
     = List.length (List.filter (fun val => val =? 1) row).
Proof.
  intros Hy. revert x. induction row as [|val row IH]; intros x Hx Hlen.
  - split; [constructor | reflexivity].
  - cbn [List.length] in Hlen.
    destruct (IH (x + 1) ltac:(lia) ltac:(lia)) as [Hall Hcount].
    cbn [removalRow List.filter]. destruct (val =? 1).
    + split.
      * constructor; [|exact Hall].
        unfold rune_a. rewrite !wrap32_small by lia.
        rewrite length_append, !Sprintf_c_letter by lia. reflexivity.
      * cbn [app List.length]. rewrite Hcount. reflexivity.
    + split; [exact Hall | exact Hcount].
Qed.

Lemma removalPairs_pairs (y : Z) (rows : list (list Z)) :
  0 <= y -> y + Z.of_nat (List.length rows) <= 25 ->
  Forall (fun row => Z.of_nat (List.length row) <= 25) rows ->
  Forall (fun s => String.length s = 2%nat) (removalPairs y rows)
  /\ List.length (removalPairs y rows)
     = List.length (List.filter (fun val => val =? 1) (List.concat rows)).
Proof.
  revert y. induction rows as [|row rows IH]; intros y Hy Hlen Hrows.
  - split; [constructor | reflexivity].
  - cbn [List.length] in Hlen. inversion Hrows as [|? ? Hrow Hrest]; subst.
    destruct (IH (y + 1) ltac:(lia) ltac:(lia) Hrest) as [Hall Hcount].
    destruct (removalRow_pairs y 0 row ltac:(lia) ltac:(lia) ltac:(lia))
      as [Hall0 Hcount0].
    cbn [removalPairs List.concat]. split.
    + apply Forall_app. split; assumption.
    + rewrite List.filter_app, !List.length_app, Hcount, Hcount0.
      reflexivity.
Qed.

(** X22.  On a board of at most 25 lines [RemovalString] spends exactly two
    letters on each point marked 1 and nothing on the others: its length is
    twice the number of marked points, and it is empty exactly when no
    point is marked. *)
Theorem RemovalString_length (g : GameState.t) :
  Z.of_nat (List.length (GameState.Removal g)) <= 25 ->
  Forall (fun row => Z.of_nat (List.length row) <= 25) (GameState.Removal g) ->
  String.length (RemovalString g) = (2 * removedCount g)%nat
  /\ (RemovalString g = EmptyString <-> removedCount g = 0%nat).
Proof.
  intros Hrows Hcols.
  destruct (removalPairs_pairs 0 (GameState.Removal g) ltac:(lia) ltac:(lia)
              Hcols) as [Hall Hcount].
  assert (Hlen : String.length (RemovalString g) = (2 * removedCount g)%nat).
  { unfold RemovalString, removedCount. rewrite concat_length, <- Hcount.
    clear Hcount. unfold list_sum.
    induction Hall as [|s l Hs Hl IH]; [reflexivity|].
    cbn [map fold_right List.length]. rewrite Hs, IH. lia. }
  split; [exact Hlen|]. split.
  - intros Hempty. rewrite Hempty in Hlen. cbn in Hlen. lia.
  - intros Hzero. rewrite Hzero in Hlen.
    destruct (RemovalString g); [reflexivity | discriminate Hlen].
Qed.

Lemma RemovalString_length_witness :
  String.length
    (RemovalString (GameState.mk PlayPhase 5 (mkOrigin 3 3) 1 ""
                      [] [[0; 0; 0]; [0; 1; 1]; [0; 0; 0]]))
  = 4%nat
  /\ (RemovalString (GameState.mk PlayPhase 5 (mkOrigin 3 3) 1 ""
                       [] [[0; 0; 0]; [0; 1; 1]; [0; 0; 0]]) = EmptyString
      <-> 2%nat = 0%nat).
Proof.
  apply (RemovalString_length
           (GameState.mk PlayPhase 5 (mkOrigin 3 3) 1 ""
              [] [[0; 0; 0]; [0; 1; 1]; [0; 0; 0]])).
  - cbn. lia.
  - repeat constructor; cbn; lia.
Defined.
